(** * bilibili-follow-manager: the request governor, the relation store and
    the search service

    A shallow embedding of [src/bilibili_api.py] (class [AntiAntiControl],
    the methods [_make_request], [unfollow_user], [batch_unfollow_all] and
    [get_all_following] of [BilibiliAPI]) and of [src/gui.py] (classes
    [DataManager] and [SearchService]), with the properties of the
    specification and of the code stated over it.

    Conventions.
    - A Python [int] is a [Z]; [len] is [Z.of_nat (length _)]; [//] is
      [Z.div] (both round towards minus infinity).
    - A Python [str] is a [string]: one [ascii] per character, so the
      texts of the model are those of [str.isascii] ([Py.isascii]).  On
      them [len], [lower], [strip], [split] and the pattern [\w] are
      Python's; outside them Python counts code points, folds the case of
      other letters and strips other blanks (U+3000, U+00A0, U+0085), and
      [Store.is_word_char] would miss the letters beyond ASCII.  The
      properties that read a text through these functions say so with
      [Py.isascii].
    - A [dict] used as a map is a [gmap]; a [list] is a [list].
    - An exception is a value of a result type. *)

From Stdlib Require Import ZArith Lia List Ascii String DecimalString.
From Stdlib Require Import Sorted Permutation.
From stdpp Require Import base option list gmap strings.

Local Open Scope Z_scope.

(** ** Python primitives *)

Module Py.


(** [str.isspace] on the ASCII range: TAB, LF, VT, FF, CR, FS, GS, RS, US
    and the blank. *)
Definition is_space (c : ascii) : bool :=
  let n := nat_of_ascii c in
  ((9 <=? n)%nat && (n <=? 13)%nat) || ((28 <=? n)%nat && (n <=? 32)%nat).

(** [str.lower], one character of an ASCII text. *)
Definition lower_char (c : ascii) : ascii :=
  let n := nat_of_ascii c in
  if ((65 <=? n)%nat && (n <=? 90)%nat)%bool then ascii_of_nat (n + 32) else c.

Fixpoint lower (s : string) : string :=
  match s with
  | EmptyString => EmptyString
  | String c r => String (lower_char c) (lower r)
  end.

Fixpoint lstrip (s : string) : string :=
  match s with
  | EmptyString => EmptyString
  | String c r => if is_space c then lstrip r else s
  end.

Fixpoint rstrip (s : string) : string :=
  match s with
  | EmptyString => EmptyString
  | String c r =>
      match rstrip r with
      | EmptyString => if is_space c then EmptyString else String c EmptyString
      | r' => String c r'
      end
  end.

(** [s.strip()] for an ASCII text [s]. *)
Definition strip (s : string) : string := rstrip (lstrip s).

(** Truth value of a [str]: non-empty. *)
Definition truthy (s : string) : bool :=
  match s with EmptyString => false | _ => true end.

(** [len(s)] for an ASCII text [s]: one [ascii] per character. *)
Definition len (s : string) : Z := Z.of_nat (String.length s).

(** [s[:i]] for [0 <= i]. *)
Fixpoint take (i : nat) (s : string) : string :=
  match i, s with
  | S j, String c r => String c (take j r)
  | _, _ => EmptyString
  end.

Fixpoint starts_with (p s : string) : bool :=
  match p, s with
  | EmptyString, _ => true
  | String a p', String b s' => if Ascii.eqb a b then starts_with p' s' else false
  | String _ _, EmptyString => false
  end.

(** [p in s] for two strings: [p] occurs in [s] as a substring. *)
Fixpoint str_in (p s : string) : bool :=
  starts_with p s ||
  match s with
  | EmptyString => false
  | String _ r => str_in p r
  end.

(** [s.split()] for an ASCII text [s]: the maximal runs of non-blank
    characters. *)
Fixpoint split_go (cur : string) (s : string) : list string :=
  match s with
  | EmptyString => match cur with EmptyString => [] | _ => [cur] end
  | String c r =>
      if is_space c
      then match cur with
           | EmptyString => split_go EmptyString r
           | _ => cur :: split_go EmptyString r
           end
      else split_go (cur +:+ String c EmptyString) r
  end.

Definition split (s : string) : list string := split_go EmptyString s.

(** [str(n)] for an [int]. *)
Definition str_of_Z (n : Z) : string := NilZero.string_of_int (Z.to_int n).

(** [range(a, b)] *)
Definition range (a b : Z) : list Z :=
  map (fun k => a + Z.of_nat k) (seq 0 (Z.to_nat (b - a))).

(** An index of a slice, brought into [0 .. n]: a negative index counts
    from the end, and what is still out of range is cut off. *)
Definition clip (n i : Z) : Z :=
  if i <? 0 then Z.max (i + n) 0 else Z.min i n.

(** [l[a:b]] ; a slice never raises. *)
Definition slice {A} (l : list A) (a b : Z) : list A :=
  let n := Z.of_nat (length l) in
  let a' := clip n a in
  let b' := clip n b in
  firstn (Z.to_nat (b' - a')) (skipn (Z.to_nat a') l).

(** [l[a:]] *)
Definition slice_from {A} (l : list A) (a : Z) : list A :=
  skipn (Z.to_nat (clip (Z.of_nat (length l)) a)) l.

(** [l[:b]] *)
Definition slice_to {A} (l : list A) (b : Z) : list A :=
  firstn (Z.to_nat (clip (Z.of_nat (length l)) b)) l.

(** [l.remove(x)]: the first occurrence goes. *)
Fixpoint list_remove (x : string) (l : list string) : list string :=
  match l with
  | [] => []
  | y :: r => if String.eqb x y then r else y :: list_remove x r
  end.

(** [x in l] for a list of strings. *)
Definition list_in (x : string) (l : list string) : bool :=
  existsb (String.eqb x) l.

(** [x in l] for a list of integers. *)
Definition Z_in (x : Z) (l : list Z) : bool := existsb (Z.eqb x) l.

End Py.

(** ** The request governor: [AntiAntiControl] *)

Module Governor.

(** The fields that [__init__] sets; times are in milliseconds. *)
Record AntiAntiControl := mkAntiAntiControl {
  min_delay_ms : Z;
  max_delay_ms : Z;
  max_retries : Z;
  base_backoff_ms : Z
}.

(** [AntiAntiControl()] *)
Definition init : AntiAntiControl :=
  {| min_delay_ms := 1000; max_delay_ms := 2000;
     max_retries := 3; base_backoff_ms := 1000 |}.

(** The codes that [should_retry] names. *)
Definition retryable_codes : list Z := [-352; 412; 500; 502; 503; 504].

(** The codes that get the longer cool-down in [get_retry_delay]. *)
Definition risk_control_codes : list Z := [-352; 412].

(** [error_code in codes], with [None] in no list. *)
Definition code_in (error_code : option Z) (codes : list Z) : bool :=
  match error_code with
  | Some c => Py.Z_in c codes
  | None => false
  end.

(** [should_retry(self, attempt, error_code=None)] *)
Definition should_retry (self : AntiAntiControl) (attempt : Z)
    (error_code : option Z) : bool :=
  if attempt >=? max_retries self then false
  else if code_in error_code retryable_codes then true
  else match error_code with Some _ => true | None => false end.

End Governor.

(** ** The transport wrapper: [BilibiliAPI._make_request] *)

Module Transport.
Import Governor.

(** What one call of [self.session.request] gives: a response, with its
    [status_code] and the entry [code] of its decoded body when the body has
    one, or a [requests.RequestException]. *)
Inductive reply :=
| Response (status_code : Z) (code : option Z)
| RequestException.

(** The entry [anti_control] of the configuration, as far as
    [_make_request] reads it; an absent key is [None]. *)
Record anti_control_config := mkConfig {
  enabled : option bool;
  cfg_max_retries : option Z
}.

(** The delay of a [time.sleep], by the expression that computes it. *)
Inductive delay :=
| RetryDelay (attempt : Z) (error_code : option Z)
    (* [anti_control.get_retry_delay(attempt, error_code)] *)
| BackoffTimes2 (attempt : Z).
    (* [anti_control.get_exponential_backoff(attempt) * 2] *)

(** The lines written to the logger. *)
Inductive log_line :=
| LimitedByCode (code : Z)
| WaitThenRetry
| ErrorCode (code : Z)
| LimitedByStatus (status_code : Z)
| FailedStatus (status_code : Z)
| RequestFailed
| RetryNumber (n : Z).

(** What the method does, in order. *)
Inductive event :=
| BeforeRequest
| Request
| AfterRequest
| Log (l : log_line)
| Sleep (d : delay).

Inductive outcome :=
| Return (r : reply)
| RaiseExhausted (max_retries : Z)
    (* [raise Exception(...)] after the loop *)
| RaiseRequestException.
    (* the exception of [session.request], not caught when the governor is
       switched off *)

(** The tail of the loop body, reached when no branch returned or
    continued. *)
Definition loop_tail (max_retries attempt : Z) : list event :=
  if attempt <? max_retries
  then [Log (RetryNumber (attempt + 1)); Sleep (RetryDelay attempt None)]
  else [].

(** One pass through the body of the [for] loop, for the reply [r] of the
    server: the events, and the response when the pass returns one. *)
Definition one_attempt (anti_control : AntiAntiControl) (max_retries attempt : Z)
    (r : reply) : list event * option reply :=
  match r with
  | RequestException =>
      ([BeforeRequest; Request; Log RequestFailed] ++
       (if attempt <? max_retries
        then [Log WaitThenRetry; Sleep (RetryDelay attempt None)]
        else loop_tail max_retries attempt), None)
  | Response status_code body_code =>
      let pre := [BeforeRequest; Request; AfterRequest] in
      if status_code =? 200 then
        let code := default (-1) body_code in
        if code =? 0 then (pre, Some r)
        else if Py.Z_in code [-352; 412] then
          if should_retry anti_control (attempt + 1) (Some code)
          then (pre ++ [Log (LimitedByCode code); Log WaitThenRetry;
                        Sleep (RetryDelay attempt (Some code))], None)
          else (pre ++ [Log (LimitedByCode code)] ++
                loop_tail max_retries attempt, None)
        else if code =? 22013 then (pre, Some r)
        else (pre ++ [Log (ErrorCode code)] ++ loop_tail max_retries attempt,
              None)
      else if Py.Z_in status_code [412; 429] then
        (pre ++ [Log (LimitedByStatus status_code);
                 Sleep (BackoffTimes2 attempt)], None)
      else (pre ++ [Log (FailedStatus status_code)] ++
            loop_tail max_retries attempt, None)
  end.

(** [for attempt in range(max_retries + 1): ...] followed by the [raise];
    [server attempt] is the reply to the request of that pass. *)
Fixpoint attempts (anti_control : AntiAntiControl) (max_retries : Z)
    (server : Z -> reply) (todo : list Z) : list event * outcome :=
  match todo with
  | [] => ([], RaiseExhausted max_retries)
  | attempt :: rest =>
      match one_attempt anti_control max_retries attempt (server attempt) with
      | (evs, Some r) => (evs, Return r)
      | (evs, None) =>
          let '(evs', o) := attempts anti_control max_retries server rest in
          (evs ++ evs', o)
      end
  end.

(** [_make_request(self, method, url, **kwargs)] *)
Definition _make_request (config : anti_control_config)
    (anti_control : AntiAntiControl) (server : Z -> reply)
    : list event * outcome :=
  if negb (default true (enabled config)) then
    match server 0 with
    | RequestException => ([Request], RaiseRequestException)
    | r => ([Request], Return r)
    end
  else
    let max_retries := default 3 (cfg_max_retries config) in
    attempts anti_control max_retries server (Py.range 0 (max_retries + 1)).

(** How many times the request went out. *)
Definition is_request (e : event) : bool :=
  match e with Request => true | _ => false end.

Definition requests_sent (evs : list event) : Z :=
  Z.of_nat (length (List.filter is_request evs)).

(** A reply that is a permanent rejection: status 200 with a code that is
    neither success, nor the already-in-state code, nor a risk-control
    code. *)
Definition permanent_reject (r : reply) : bool :=
  match r with
  | Response status_code body_code =>
      let code := default (-1) body_code in
      (status_code =? 200) && negb (code =? 0) && negb (code =? 22013)
      && negb (Py.Z_in code [-352; 412])
  | RequestException => false
  end.

(** A reply that ends the call with a response: status 200 with the code
    0 or 22013. *)
Definition accepted (r : reply) : bool :=
  match r with
  | Response status_code body_code =>
      let code := default (-1) body_code in
      (status_code =? 200) && ((code =? 0) || (code =? 22013))
  | RequestException => false
  end.

Definition is_sleep (e : event) : bool :=
  match e with Sleep _ => true | _ => false end.

(** How many times the method slept between attempts. *)
Definition sleeps_made (evs : list event) : Z :=
  Z.of_nat (length (List.filter is_sleep evs)).

End Transport.

(** ** The relation store: [DataManager] *)

Module Store.

(** The value under ['uid'] or ['mid']: the remote sends a number, the
    store writes a string. *)
Inductive id_value :=
| IdInt (n : Z)
| IdStr (s : string).

(** [str(v)] *)
Definition str (v : id_value) : string :=
  match v with
  | IdInt n => Py.str_of_Z n
  | IdStr s => s
  end.

(** A value that the store copies and never inspects (['vip'],
    ['official']): an object of numbers and strings. *)
Definition json_object : Type := list (string * id_value).

(** One account, as a [dict]: every key may be absent. *)
Record user := mkUser {
  uid : option id_value;
  mid : option id_value;
  uname : option string;
  sign : option string;
  mtime : option Z;
  mtime_str : option string;
  face : option string;
  vip : option json_object;
  official : option json_object
}.

(** An entry of an index: the list of ids under a key, or the number of
    keys under the key ['__total__']. *)
Inductive index_entry :=
| Uids (l : list string)
| Total (n : Z).

Record index_set := mkIndex {
  by_name : gmap string index_entry;
  by_uid : gmap string index_entry;
  by_sign : gmap string index_entry
}.

Record statistics_set := mkStatistics {
  name_length_stats : gmap string Z;
  sign_length_stats : gmap string Z
}.

(** The [dict] that [process_data] returns. *)
Record processed := mkProcessed {
  version : string;
  update_time : string;
  total_count : Z;
  users : gmap string user;
  index : index_set;
  statistics : statistics_set
}.

Definition VERSION : string := "1.0".

(** The key that holds the number of keys of an index. *)
Definition total_key : string := "__total__".

(** What the loop of [process_data] updates. *)
Record building := mkBuilding {
  b_users : gmap string user;
  b_by_name : gmap string (list string);
  b_by_uid : gmap string (list string);
  b_by_sign : gmap string (list string);
  b_name_length_stats : gmap string Z;
  b_sign_length_stats : gmap string Z
}.

Definition empty_building : building :=
  mkBuilding ∅ ∅ ∅ ∅ ∅ ∅.

(** [if key not in d: d[key] = []] and then [d[key].append(uid)] *)
Definition append_uid (key uid : string) (d : gmap string (list string))
    : gmap string (list string) :=
  <[key := default [] (d !! key) ++ [uid]]> d.

(** [if key not in d: d[key] = []] and then
    [if uid not in d[key]: d[key].append(uid)] *)
Definition append_uid_once (key uid : string) (d : gmap string (list string))
    : gmap string (list string) :=
  let l := default [] (d !! key) in
  <[key := if Py.list_in uid l then l else l ++ [uid]]> d.

(** [for i in range(a, b): append s[:i]] *)
Definition index_prefixes (s uid : string) (a b : Z)
    (d : gmap string (list string)) : gmap string (list string) :=
  fold_left (fun d i => append_uid (Py.take (Z.to_nat i) s) uid d)
            (Py.range a b) d.

(** A character of an ASCII text that [\w] matches. *)
Definition is_word_char (c : ascii) : bool :=
  let n := nat_of_ascii c in
  ((48 <=? n)%nat && (n <=? 57)%nat) || ((65 <=? n)%nat && (n <=? 90)%nat)
  || ((97 <=? n)%nat && (n <=? 122)%nat) || (n =? 95)%nat.

(** [re.findall(r'\b\w+\b', s)] for an ASCII text [s]: the maximal runs
    of word characters. *)
Fixpoint words_go (cur : string) (s : string) : list string :=
  match s with
  | EmptyString => match cur with EmptyString => [] | _ => [cur] end
  | String c r =>
      if is_word_char c then words_go (cur +:+ String c EmptyString) r
      else match cur with
           | EmptyString => words_go EmptyString r
           | _ => cur :: words_go EmptyString r
           end
  end.

Definition words (s : string) : list string := words_go EmptyString s.

(** The label of the bucket of width [w] that holds the length [n]. *)
Definition len_bucket (n w : Z) : string :=
  Py.str_of_Z (n / w * w) +:+ "-" +:+ Py.str_of_Z ((n / w + 1) * w - 1).

(** [if k not in d: d[k] = 0] and then [d[k] += 1] *)
Definition count_up (k : string) (d : gmap string Z) : gmap string Z :=
  <[k := default 0 (d !! k) + 1]> d.

(** The id that the loop reads off an entry:
    [str(user.get('uid', '')) or str(user.get('mid', ''))]. *)
Definition uid_of (u : user) : string :=
  let a := str (default (IdStr "") (uid u)) in
  if Py.truthy a then a else str (default (IdStr "") (mid u)).

(** [user.get('uname', '').strip()] *)
Definition uname_of (u : user) : string := Py.strip (default "" (uname u)).

(** [user.get('sign', '').strip() if user.get('sign') else ''] *)
Definition sign_of (u : user) : string :=
  match sign u with
  | Some s => if Py.truthy s then Py.strip s else ""
  | None => ""
  end.


(** The body of the loop of [process_data] for one entry. *)
Definition process_user (b : building) (u : user) : building :=
  let uid := uid_of u in
  let uname := uname_of u in
  let sign := sign_of u in
  let mtime := default 0 (mtime u) in
  let mtime_str := default "未知" (mtime_str u) in
  if negb (Py.truthy uid) then b
  else
    let user_info :=
      {| uid := Some (IdStr uid); mid := None;
         uname := Some uname; sign := Some sign;
         mtime := Some mtime; mtime_str := Some mtime_str;
         face := Some (default "" (face u));
         vip := Some (default [] (vip u));
         official := Some (default [] (official u)) |} in
    let name_lower := Py.lower uname in
    let uid_key := Py.lower uid in
    let sign_lower := Py.lower sign in
    {| b_users := <[uid := user_info]> (b_users b);
       b_by_name :=
         index_prefixes name_lower uid 1 (Z.min (Py.len name_lower + 1) 20)
                        (b_by_name b);
       b_by_uid :=
         if Py.len uid_key <=? 20
         then index_prefixes uid_key uid 1 (Py.len uid_key + 1) (b_by_uid b)
         else b_by_uid b;
       b_by_sign :=
         fold_left (fun d word =>
                      if Py.len word >=? 2 then append_uid_once word uid d
                      else d)
                   (remove_dups (words sign_lower)) (b_by_sign b);
       b_name_length_stats :=
         count_up (len_bucket (Py.len uname) 10) (b_name_length_stats b);
       b_sign_length_stats :=
         count_up (len_bucket (Py.len sign) 50) (b_sign_length_stats b) |}.

(** [d['__total__'] = len(d)] on a finished index. *)
Definition with_total (d : gmap string (list string))
    : gmap string index_entry :=
  <[total_key := Total (Z.of_nat (size d))]> (Uids <$> d).

(** [process_data(self, raw_list)]; [now] is
    [datetime.now().isoformat()]. *)
Definition process_data (now : string) (raw_list : list user) : processed :=
  let b := fold_left process_user raw_list empty_building in
  {| version := VERSION;
     update_time := now;
     total_count := Z.of_nat (length raw_list);
     users := b_users b;
     index := {| by_name := with_total (b_by_name b);
                 by_uid := with_total (b_by_uid b);
                 by_sign := with_total (b_by_sign b) |};
     statistics := {| name_length_stats := b_name_length_stats b;
                      sign_length_stats := b_sign_length_stats b |} |}.

(** The ids that an index holds under a key. *)
Definition uids_under (d : gmap string index_entry) (key : string)
    : list string :=
  match d !! key with
  | Some (Uids l) => l
  | _ => []
  end.

(** The entry that the loop of [process_data] stores for an input entry
    that has an id. *)
Definition user_info (u : user) : user :=
  {| uid := Some (IdStr (uid_of u)); mid := None;
     uname := Some (uname_of u); sign := Some (sign_of u);
     mtime := Some (default 0 (mtime u));
     mtime_str := Some (default "未知" (mtime_str u));
     face := Some (default "" (face u));
     vip := Some (default [] (vip u));
     official := Some (default [] (official u)) |}.

(** [self.processed_data] is [{}] ([None]) or a snapshot. *)
Definition get_user_by_uid (processed_data : option processed)
    (uid : id_value) : option user :=
  match processed_data with
  | Some p => users p !! str uid
  | None => None
  end.

(** [self.processed_data.get('index', {}).get(f'by_{search_type}', {})] *)
Definition index_of (processed_data : option processed)
    (search_type : string) : gmap string index_entry :=
  match processed_data with
  | Some p =>
      if String.eqb search_type "name" then by_name (index p)
      else if String.eqb search_type "uid" then by_uid (index p)
      else if String.eqb search_type "sign" then by_sign (index p)
      else ∅
  | None => ∅
  end.

(** [search_index(self, keyword, search_type='name')].  The scan of the
    type ['uid'] ends in [list(set(results))], whose order Python leaves
    open; the order given here is one of them. *)
Definition search_index (processed_data : option processed)
    (keyword search_type : string) : index_entry :=
  let keyword := Py.strip (Py.lower keyword) in
  let index := index_of processed_data search_type in
  if String.eqb search_type "uid" then
    match index !! keyword with
    | Some e => e
    | None =>
        Uids (remove_dups
                (flat_map
                   (fun '(prefix, uids) =>
                      if negb (String.eqb prefix total_key)
                         && Py.str_in keyword prefix
                      then match uids with Uids l => l | Total _ => [] end
                      else [])
                   (map_to_list index)))
    end
  else default (Uids []) (index !! keyword).

(** The sum of the counts of a histogram. *)
Definition stats_total (d : gmap string Z) : Z :=
  map_fold (fun _ v acc => v + acc) 0 d.

(** The invariant of the loop of [process_data]: an id under a key of an
    index is a key of [users]. *)
Definition ids_known (b : building) : Prop :=
  forall (p x : string),
    In x (default [] (b_by_name b !! p)) \/
    In x (default [] (b_by_uid b !! p)) \/
    In x (default [] (b_by_sign b !! p)) ->
    is_Some (b_users b !! x).

(** *** Backups *)

Definition BACKUP_PREFIX : string := "following_backup_".

(** [f.endswith(suffix)] *)
Fixpoint ends_with (suffix f : string) : bool :=
  String.eqb suffix f ||
  match f with
  | EmptyString => false
  | String _ rest => ends_with suffix rest
  end.

(** [f.startswith(self.BACKUP_PREFIX) and f.endswith('.json')] *)
Definition is_backup (f : string) : bool :=
  Py.starts_with BACKUP_PREFIX f && ends_with ".json" f.

(** A file of the data directory: its name and [os.path.getmtime] of it,
    a time stamp compared as a number. *)
Definition file : Type := string * Z.

(** One step of [sort(key=lambda x: x[1], reverse=True)]: the sort is
    stable, so [x] goes in front of the first entry that is not newer. *)
Fixpoint insert_newest_first (x : file) (l : list file) : list file :=
  match l with
  | [] => [x]
  | y :: rest =>
      if snd y <=? snd x then x :: y :: rest
      else y :: insert_newest_first x rest
  end.

(** [backup_files.sort(key=lambda x: x[1], reverse=True)] *)
Definition sort_newest_first (l : list file) : list file :=
  fold_right insert_newest_first [] l.

(** The backups among the files of the directory, newest first. *)
Definition backup_files (listing : list file) : list file :=
  sort_newest_first (List.filter (fun f => is_backup (fst f)) listing).

(** [cleanup_old_backups(self, max_keep=5)]: the names of the files it
    removes, from the listing of the directory; [removable] tells for
    which files [os.remove] succeeds, a failure being passed over. *)
Definition cleanup_old_backups (listing : list file) (max_keep : Z)
    (removable : string -> bool) : list string :=
  List.filter removable
    (map fst (Py.slice_from (backup_files listing) max_keep)).

(** *** Observers *)

Section Observers.

(** [W] is whatever the callbacks act on, [D] the payload of an event.
    The registry itself is no part of [W]: a callback does not register or
    unregister while the registry is iterated. *)
Variables W D : Type.

(** What ends a call of a callback: it returns, it raises an instance of
    [Exception], or it raises another [BaseException]. *)
Inductive ending :=
| Returns
| RaisesException (e : string)
| RaisesBaseException (e : string).

Definition callback : Type := string -> D -> W -> W * ending.

(** [self.observers]: a [dict] in insertion order, one entry per name. *)
Definition observers : Type := list (string * callback).

(** [self.observers[name] = callback] *)
Fixpoint register_observer (obs : observers) (name : string) (cb : callback)
    : observers :=
  match obs with
  | [] => [(name, cb)]
  | (n, c) :: rest =>
      if String.eqb n name then (n, cb) :: rest
      else (n, c) :: register_observer rest name cb
  end.

(** [if name in self.observers: del self.observers[name]] *)
Fixpoint unregister_observer (obs : observers) (name : string) : observers :=
  match obs with
  | [] => []
  | (n, c) :: rest =>
      if String.eqb n name then rest
      else (n, c) :: unregister_observer rest name
  end.

(** What [notify_observers] does, in order. *)
Inductive notice :=
| Called (name : string)
| Printed (name : string) (e : string).

(** [notify_observers(self, event, data)]: the state the callbacks leave,
    what was done, and the exception that leaves the method, if one
    does. *)
Fixpoint notify_observers (obs : observers) (event : string) (data : D)
    (w : W) : W * list notice * option string :=
  match obs with
  | [] => (w, [], None)
  | (name, cb) :: rest =>
      match cb event data w with
      | (w', Returns) =>
          let '(w'', ns, x) := notify_observers rest event data w' in
          (w'', Called name :: ns, x)
      | (w', RaisesException e) =>
          let '(w'', ns, x) := notify_observers rest event data w' in
          (w'', Called name :: Printed name e :: ns, x)
      | (w', RaisesBaseException e) => (w', [Called name], Some e)
      end
  end.

(** The names whose callback was called, in order. *)
Fixpoint called (ns : list notice) : list string :=
  match ns with
  | [] => []
  | Called name :: rest => name :: called rest
  | Printed _ _ :: rest => called rest
  end.

End Observers.

Arguments notify_observers {W D} obs event data w.
Arguments register_observer {W D} obs name cb.
Arguments unregister_observer {W D} obs name.

End Store.

(** ** The search service: [SearchService] *)

Module Search.
Import Store.

(** The object: its data, the history in memory, and the file
    [search_history.json] ([None]: no file yet).  [fs_writable] tells
    whether writing that file succeeds; a failed write is swallowed. *)
Record SearchService := mkSearchService {
  data : list user;
  search_history : list string;
  history_file : option (list string);
  fs_writable : bool
}.

(** [set_data(self, data_list)] *)
Definition set_data (self : SearchService) (data_list : list user)
    : SearchService :=
  {| data := data_list; search_history := search_history self;
     history_file := history_file self; fs_writable := fs_writable self |}.

(** [save_history(self)] *)
Definition save_history (self : SearchService) : SearchService :=
  if fs_writable self
  then {| data := data self; search_history := search_history self;
          history_file := Some (Py.slice_from (search_history self) (-50));
          fs_writable := true |}
  else self.

(** [add_to_history(self, query)] *)
Definition add_to_history (self : SearchService) (query : string)
    : SearchService :=
  if Py.truthy query && Py.truthy (Py.strip query) then
    let query := Py.strip query in
    let h := search_history self in
    let h := if Py.list_in query h then Py.list_remove query h else h in
    save_history
      {| data := data self; search_history := query :: h;
         history_file := history_file self;
         fs_writable := fs_writable self |}
  else self.


(** The [dict] that [search] returns; [timed] tells whether it has the
    key ['elapsed']. *)
Record found := mkFound {
  results : list user;
  total : Z;
  page : Z;
  page_size : Z;
  total_pages : Z;
  query : string;
  timed : bool
}.

Inductive outcome :=
| Return (r : found) (self : SearchService)
| ZeroDivisionError.

(** The test of the exact mode for one entry. *)
Definition matches_exact (keyword : string) (u : user) : bool :=
  Py.str_in keyword (Py.lower (default "" (uname u)))
  || Py.str_in keyword (str (default (IdStr "") (uid u)))
  || Py.str_in keyword (Py.lower (default "" (sign u))).

(** The test of the other mode: one of the keywords occurs. *)
Definition matches_any (keywords : list string) (u : user) : bool :=
  let uname := Py.lower (default "" (uname u)) in
  let sign := Py.lower (default "" (sign u)) in
  let uid := str (default (IdStr "") (uid u)) in
  existsb (fun kw => Py.str_in kw uname || Py.str_in kw sign
                     || Py.str_in kw uid) keywords.

(** The entries that the query selects, in the order of the data. *)
Definition select (self : SearchService) (keyword : string) (exact : bool)
    : list user :=
  if exact then List.filter (matches_exact keyword) (data self)
  else List.filter (matches_any (Py.split keyword)) (data self).

(** [search(self, query, exact=False, page=1, page_size=20)] *)
Definition search (self : SearchService) (query : string) (exact : bool)
    (page page_size : Z) : outcome :=
  if negb (Py.truthy query) || negb (Py.truthy (Py.strip query)) then
    Return {| results := []; total := 0; page := 1; page_size := page_size;
              total_pages := 0; query := ""; timed := false |} self
  else
    let query := Py.strip query in
    let keyword := Py.lower query in
    let results := select self keyword exact in
    let total := Z.of_nat (length results) in
    if page_size =? 0 then ZeroDivisionError
    else
      let total_pages := (total + page_size - 1) / page_size in
      let page := Z.min page (Z.max 1 total_pages) in
      let start_idx := (page - 1) * page_size in
      let end_idx := start_idx + page_size in
      let page_results := Py.slice results start_idx end_idx in
      Return {| results := page_results; total := total; page := page;
                page_size := page_size; total_pages := total_pages;
                query := query; timed := true |}
             (add_to_history self query).

(** [load_history(self)], for a history file that holds a list of strings
    when it exists. *)
Definition load_history (self : SearchService) : SearchService :=
  match history_file self with
  | Some saved =>
      {| data := data self; search_history := saved;
         history_file := history_file self; fs_writable := fs_writable self |}
  | None => self
  end.

(** [SearchService()], beside the history file [saved]. *)
Definition init (saved : option (list string)) (writable : bool)
    : SearchService :=
  load_history {| data := []; search_history := [];
                  history_file := saved; fs_writable := writable |}.

(** The results of a call of [search] that returned. *)
Definition results_of (o : outcome) : list user :=
  match o with
  | Return r _ => results r
  | ZeroDivisionError => []
  end.

(** The test that [search] applies to an entry, by the mode. *)
Definition matches (keyword : string) (exact : bool) (u : user) : bool :=
  if exact then matches_exact keyword u
  else matches_any (Py.split keyword) u.

End Search.

(** ** Unfollowing and fetching: [unfollow_user], [batch_unfollow_all]
    and [get_all_following] *)

Module Relation.
Import Governor Store.

(** What [self.session.post(url, data=data)] followed by [response.json()]
    gives: the decoded body, with its entry ['code'] when it has one, or an
    exception of one of the calls around it. *)
Inductive posted :=
| Body (code : option Z)
| PostFails.

(** The entry ['settings'] of the configuration, as these methods read it;
    an absent key is [None]. *)
Record settings := mkSettings {
  test_mode : option bool;
  max_test_operations : option Z;
  batch_size : Z;
  delay_between_requests : option Z   (* seconds *)
}.

(** The retry loop of [unfollow_user]:
    [for attempt in range(self.anti_control.max_retries)], with the code of
    the reply before.  The answer, the number of posts sent so far and the
    delays slept. *)
Fixpoint unfollow_retries (server : nat -> posted) (todo : list Z) (code : Z)
    (n : nat) : bool * nat * list Transport.delay :=
  match todo with
  | [] => (false, n, [])
  | attempt :: rest =>
      let d := Transport.RetryDelay (attempt + 1) (Some code) in
      match server n with
      | PostFails => (false, S n, [d])
      | Body body_code =>
          let code := default (-1) body_code in
          if code =? 0 then (true, S n, [d])
          else if code =? 22015 then (true, S n, [d])
          else
            let '(ok, n', ds) := unfollow_retries server rest code (S n) in
            (ok, n', d :: ds)
      end
  end.

(** [unfollow_user(self, fid)] *)
Definition unfollow_user (st : settings) (anti_control : AntiAntiControl)
    (server : nat -> posted) (n : nat) : bool * nat * list Transport.delay :=
  if default false (test_mode st) then (true, n, [])
  else
    match server n with
    | PostFails => (false, S n, [])
    | Body body_code =>
        let code := default (-1) body_code in
        if code =? 0 then (true, S n, [])
        else if code =? 22015 then (true, S n, [])
        else if Py.Z_in code [-352; 22016] then
          unfollow_retries server (Py.range 0 (max_retries anti_control))
                           code (S n)
        else (false, S n, [])
    end.

(** A reply that makes [unfollow_user] answer [True]. *)
Definition unfollowed (r : posted) : bool :=
  match r with
  | Body body_code =>
      let code := default (-1) body_code in
      (code =? 0) || (code =? 22015)
  | PostFails => false
  end.

(** The [dict] that [batch_unfollow_all] returns; an absent key is
    [None]. *)
Record tally := mkTally {
  total : Z;
  success : Z;
  failed : Z;
  cancelled : option bool;
  in_test_mode : option bool
}.

Inductive batch_outcome :=
| Tallied (t : tally)
| KeyError (key : string).

(** The loop of [batch_unfollow_all] over [enumerate(all_following, 1)]
    from the index [i] on: the outcome, the number of posts sent so far and
    the number of pauses between two operations. *)
Fixpoint unfollow_each (st : settings) (anti_control : AntiAntiControl)
    (server : nat -> posted) (total_count : Z) (is_test_mode : bool)
    (users : list user) (i : Z) (success_count failed_count : Z)
    (n pauses : nat) : batch_outcome * nat * nat :=
  match users with
  | [] =>
      (Tallied {| total := total_count; success := success_count;
                  failed := failed_count; cancelled := None;
                  in_test_mode := Some is_test_mode |}, n, pauses)
  | user :: rest =>
      match mid user, uname user with
      | None, _ => (KeyError "mid", n, pauses)
      | Some _, None => (KeyError "uname", n, pauses)
      | Some fid, Some _ =>
          let '(ok, n', _) := unfollow_user st anti_control server n in
          unfollow_each st anti_control server total_count is_test_mode rest
            (i + 1)
            (if ok then success_count + 1 else success_count)
            (if ok then failed_count else failed_count + 1)
            n'
            (if i <? total_count then S pauses else pauses)
      end
  end.

(** [batch_unfollow_all(self, confirm_callback=None)], from the list that
    [self.get_all_following()] gave. *)
Definition batch_unfollow_all (st : settings) (anti_control : AntiAntiControl)
    (confirm_callback : option (Z -> bool)) (all_following : list user)
    (server : nat -> posted) (n : nat) : batch_outcome * nat * nat :=
  match all_following with
  | [] => (Tallied {| total := 0; success := 0; failed := 0;
                      cancelled := None; in_test_mode := None |}, n, 0%nat)
  | _ =>
      let total_count := Z.of_nat (length all_following) in
      let is_test_mode := default false (test_mode st) in
      let max_test_ops := default 5 (max_test_operations st) in
      let total_count :=
        if is_test_mode then Z.min total_count max_test_ops else total_count in
      let all_following :=
        if is_test_mode then Py.slice_to all_following total_count
        else all_following in
      let refused :=
        match confirm_callback with
        | Some confirm => negb (confirm total_count)
        | None => false
        end in
      if refused then
        (Tallied {| total := total_count; success := 0; failed := 0;
                    cancelled := Some true; in_test_mode := None |}, n, 0%nat)
      else
        unfollow_each st anti_control server total_count is_test_mode
                      all_following 1 0 0 n 0
  end.

(** *** Fetching the list page by page *)

(** What [self.get_following_list(pn, ps)] gives: the [dict] under
    ['data'], with its entry ['list'] when it has one, or an exception. *)
Inductive page_reply :=
| Page (list : option (list user))
| PageFails.

(** How [get_all_following] ends: with the list, with the exception of
    [get_following_list], with the [KeyError] of a key that the
    configuration lacks, or with the [ValueError] of [time.sleep] for a
    negative length. *)
Inductive fetched :=
| Fetched (all_following : list user)
| FetchRaises
| FetchKeyError (key : string)
| FetchValueError.

Section Fetch.

(** [datetime.datetime.fromtimestamp(t).strftime('%Y-%m-%d %H:%M')];
    [None] when it raises. *)
Variable strftime : Z -> option string.

(** The loop over a page that sets ['mtime_str'] of every entry. *)
Definition stamp (u : user) : user :=
  {| uid := uid u; mid := mid u; uname := uname u; sign := sign u;
     mtime := mtime u;
     mtime_str :=
       Some match mtime u with
            | Some t => if t =? 0 then "未知" else default "未知" (strftime t)
            | None => "未知"
            end;
     face := face u; vip := vip u; official := official u |}.

(** The [while True] loop of [get_all_following], from the page [pn] on,
    with at most [fuel] pages; [None] when the fuel runs out before the
    loop ends. *)
Fixpoint fetch_pages (fuel : nat) (ps : Z) (server : Z -> page_reply)
    (pn : Z) (all_following : list user) : option (list user) :=
  match fuel with
  | O => None
  | S fuel =>
      match server pn with
      | PageFails => Some all_following
      | Page l =>
          let following_list := default [] l in
          match following_list with
          | [] => Some all_following
          | _ =>
              let all_following := all_following ++ map stamp following_list in
              if Z.of_nat (length following_list) <? ps then Some all_following
              else fetch_pages fuel ps server (pn + 1) all_following
          end
      end
  end.

(** The loop of [_get_all_following_legacy].  After a full page it runs
    [time.sleep(self.config['settings']['delay_between_requests'])]: the
    subscript raises [KeyError] when the key is absent, and [time.sleep]
    raises [ValueError] for a negative number. *)
Fixpoint fetch_pages_legacy (fuel : nat) (st : settings)
    (server : Z -> page_reply) (pn : Z) (all_following : list user)
    : option fetched :=
  match fuel with
  | O => None
  | S fuel =>
      match server pn with
      | PageFails => Some FetchRaises
      | Page l =>
          let following_list := default [] l in
          match following_list with
          | [] => Some (Fetched all_following)
          | _ =>
              let all_following := all_following ++ following_list in
              if Z.of_nat (length following_list) <? batch_size st
              then Some (Fetched all_following)
              else
                match delay_between_requests st with
                | None => Some (FetchKeyError "delay_between_requests")
                | Some secs =>
                    if secs <? 0 then Some FetchValueError
                    else fetch_pages_legacy fuel st server (pn + 1)
                                            all_following
                end
          end
      end
  end.

(** [get_all_following(self)] *)
Definition get_all_following (fuel : nat) (enabled : option bool)
    (st : settings) (server : Z -> page_reply) : option fetched :=
  if negb (default true enabled)
  then fetch_pages_legacy fuel st server 1 []
  else option_map Fetched
         (fetch_pages fuel (Z.min (batch_size st) 50) server 1 []).

End Fetch.

(** The entries of a page. *)
Definition page_users (r : page_reply) : list user :=
  match r with
  | Page (Some l) => l
  | _ => []
  end.

(** A page after which the loop stops: it failed, it is empty, or it has
    fewer than [ps] entries. *)
Definition last_page (ps : Z) (r : page_reply) : bool :=
  match r with
  | PageFails => true
  | Page l =>
      match default [] l with
      | [] => true
      | following_list => Z.of_nat (length following_list) <? ps
      end
  end.

End Relation.

(** * Properties *)

(** ** Facts about the primitives *)

Section PyFacts.
Import Py.

Lemma range_In (a b k : Z) : In k (range a b) <-> a <= k < b.
Proof.
  unfold range. rewrite in_map_iff. split.
  - intros (n & <- & Hn). apply in_seq in Hn. lia.
  - intros Hk. exists (Z.to_nat (k - a)). split; [lia |].
    apply in_seq. lia.
Qed.

Lemma range_length (a b : Z) : length (range a b) = Z.to_nat (b - a).
Proof. unfold range. now rewrite length_map, length_seq. Qed.

Lemma Z_in_true (x : Z) (l : list Z) : Z_in x l = true <-> In x l.
Proof.
  unfold Z_in. rewrite existsb_exists. split.
  - intros (y & Hy & E). apply Z.eqb_eq in E. now subst.
  - intros H. exists x. split; [assumption | apply Z.eqb_refl].
Qed.

Lemma list_in_true (x : string) (l : list string) :
  list_in x l = true <-> In x l.
Proof.
  unfold list_in. rewrite existsb_exists. split.
  - intros (y & Hy & E). apply String.eqb_eq in E. now subst.
  - intros H. exists x. split; [assumption | apply String.eqb_refl].
Qed.

Lemma truthy_false (s : string) : truthy s = false <-> s = "".
Proof. destruct s; simpl; split; congruence. Qed.

End PyFacts.

(** ** The governor *)

Section GovernorFacts.
Import Governor.

(** The list of retryable codes decides nothing: below the limit every
    code is retried. *)
Lemma should_retry_unfold (self : AntiAntiControl) (attempt : Z)
    (error_code : option Z) :
  should_retry self attempt error_code =
  (attempt <? max_retries self) &&
  match error_code with Some _ => true | None => false end.
Proof.
  unfold should_retry.
  destruct (Z.geb_spec attempt (max_retries self)) as [H | H];
    destruct (Z.ltb_spec attempt (max_retries self)) as [H' | H'];
    try lia; simpl; try reflexivity.
  destruct error_code as [c |]; [| reflexivity].
  unfold code_in. now destruct (Py.Z_in c retryable_codes).
Qed.

(** C2. [should_retry(attempt, error_code)] is false as soon as
    [attempt >= max_retries]; below that limit it is true for each of the
    codes -352, 412, 500, 502, 503, 504 and true for every other code that
    is not [None]; for the outcome without an error code ([None], a
    success) it is false. *)
Theorem should_retry_spec (self : AntiAntiControl) (attempt : Z) :
  retryable_codes = [-352; 412; 500; 502; 503; 504] /\
  (max_retries self <= attempt ->
   forall error_code, should_retry self attempt error_code = false) /\
  (attempt < max_retries self ->
   forall c, In c retryable_codes -> should_retry self attempt (Some c) = true) /\
  (attempt < max_retries self ->
   forall c, should_retry self attempt (Some c) = true) /\
  should_retry self attempt None = false.
Proof.
  split; [reflexivity |].
  repeat split; intros; rewrite should_retry_unfold.
  - destruct (Z.ltb_spec attempt (max_retries self)); [lia | reflexivity].
  - destruct (Z.ltb_spec attempt (max_retries self)); [reflexivity | lia].
  - destruct (Z.ltb_spec attempt (max_retries self)); [reflexivity | lia].
  - apply andb_false_r.
Qed.

Lemma should_retry_spec_witness :
  should_retry init 3 (Some 500) = false /\
  should_retry init 0 (Some 412) = true /\
  should_retry init 0 (Some 22001) = true.
Proof.
  destruct (should_retry_spec init 3) as (_ & Hstop & _).
  destruct (should_retry_spec init 0) as (_ & _ & Hset & Hany & _).
  split; [apply Hstop; simpl; lia |].
  split; [apply Hset; simpl; [lia | tauto] | apply Hany; simpl; lia].
Defined.

End GovernorFacts.

(** ** The transport wrapper *)

Section TransportFacts.
Import Governor Transport.

Lemma requests_sent_app (a b : list event) :
  requests_sent (a ++ b) = requests_sent a + requests_sent b.
Proof.
  unfold requests_sent. rewrite List.filter_app, length_app. lia.
Qed.

Lemma requests_sent_cons (e : event) (l : list event) :
  requests_sent (e :: l) = (if is_request e then 1 else 0) + requests_sent l.
Proof.
  unfold requests_sent. cbn [List.filter].
  destruct (is_request e); cbn [length]; lia.
Qed.

Lemma requests_sent_loop_tail (max_retries attempt : Z) :
  requests_sent (loop_tail max_retries attempt) = 0.
Proof. unfold loop_tail. now destruct (attempt <? max_retries). Qed.

(** Every pass sends the request once, whatever the reply. *)
Lemma one_attempt_sends_once (anti_control : AntiAntiControl)
    (max_retries attempt : Z) (r : reply) :
  requests_sent (fst (one_attempt anti_control max_retries attempt r)) = 1.
Proof.
  unfold one_attempt.
  destruct r as [status_code body_code |].
  - repeat match goal with
           | |- context [if ?b then _ else _] => destruct b
           end;
      cbn [fst app]; rewrite ?requests_sent_cons, ?requests_sent_loop_tail;
      reflexivity.
  - cbn [fst app]. rewrite !requests_sent_cons.
    destruct (attempt <? max_retries);
      rewrite ?requests_sent_loop_tail; reflexivity.
Qed.

(** A permanent rejection is logged and takes the tail of the loop body,
    which sleeps and goes round again while attempts remain. *)
Lemma one_attempt_permanent (anti_control : AntiAntiControl)
    (max_retries attempt : Z) (r : reply) :
  permanent_reject r = true ->
  exists code,
    one_attempt anti_control max_retries attempt r =
    ([BeforeRequest; Request; AfterRequest; Log (ErrorCode code)]
       ++ loop_tail max_retries attempt, None).
Proof.
  destruct r as [status_code body_code |]; [| discriminate].
  unfold permanent_reject, one_attempt.
  intros H. exists (default (-1) body_code).
  destruct (status_code =? 200); [| discriminate].
  destruct (default (-1) body_code =? 0); [discriminate |].
  destruct (default (-1) body_code =? 22013); [discriminate |].
  destruct (Py.Z_in (default (-1) body_code) [-352; 412]); [discriminate |].
  reflexivity.
Qed.

(** The loop over a list of attempts that all meet a permanent rejection
    runs to its end. *)
Lemma attempts_all_permanent (anti_control : AntiAntiControl)
    (max_retries : Z) (server : Z -> reply) (todo : list Z) :
  (forall attempt, In attempt todo -> permanent_reject (server attempt) = true) ->
  snd (attempts anti_control max_retries server todo)
    = RaiseExhausted max_retries /\
  requests_sent (fst (attempts anti_control max_retries server todo))
    = Z.of_nat (length todo).
Proof.
  induction todo as [| attempt rest IH]; intros Hall.
  - split; reflexivity.
  - destruct IH as [IHo IHn]; [intros a Ha; apply Hall; now right |].
    pose proof (one_attempt_sends_once anti_control max_retries attempt
                  (server attempt)) as Hone.
    destruct (one_attempt_permanent anti_control max_retries attempt
                (server attempt)) as [code E]; [apply Hall; now left |].
    cbn [attempts]. rewrite E in Hone |- *. cbn [fst] in Hone.
    destruct (attempts anti_control max_retries server rest) as [evs' o].
    cbn [fst snd] in *. split; [assumption |].
    rewrite requests_sent_app, Hone, IHn. cbn [length]. lia.
Qed.

(** C5, as the code has it.  With the governor switched on, a reply with
    status 200 and a code other than 0, 22013, -352 and 412 is not
    surfaced: the pass logs it and, while attempts remain, sleeps
    [get_retry_delay(attempt)] and sends the request again, as for any
    other failure.  When every attempt meets such a reply, the request is
    sent [max_retries + 1] times and the call ends in the exception raised
    after the loop. *)
Theorem permanent_reject_is_retried (config : anti_control_config)
    (anti_control : AntiAntiControl) (server : Z -> reply) :
  default true (enabled config) = true ->
  0 <= default 3 (cfg_max_retries config) ->
  (forall attempt, 0 <= attempt <= default 3 (cfg_max_retries config) ->
                   permanent_reject (server attempt) = true) ->
  (forall attempt, 0 <= attempt < default 3 (cfg_max_retries config) ->
     exists code,
       one_attempt anti_control (default 3 (cfg_max_retries config)) attempt
                   (server attempt) =
       ([BeforeRequest; Request; AfterRequest; Log (ErrorCode code);
         Log (RetryNumber (attempt + 1)); Sleep (RetryDelay attempt None)],
        None)) /\
  snd (_make_request config anti_control server)
    = RaiseExhausted (default 3 (cfg_max_retries config)) /\
  requests_sent (fst (_make_request config anti_control server))
    = default 3 (cfg_max_retries config) + 1.
Proof.
  intros Hon Hpos Hall. split.
  - intros attempt Ha.
    destruct (one_attempt_permanent anti_control
                (default 3 (cfg_max_retries config)) attempt (server attempt))
      as [code E]; [apply Hall; lia |].
    exists code. rewrite E. unfold loop_tail.
    destruct (Z.ltb_spec attempt (default 3 (cfg_max_retries config)));
      [reflexivity | lia].
  - unfold _make_request. rewrite Hon. cbn [negb].
    destruct (attempts_all_permanent anti_control
                (default 3 (cfg_max_retries config)) server
                (Py.range 0 (default 3 (cfg_max_retries config) + 1)))
      as [Ho Hn].
    + intros a Ha. apply range_In in Ha. apply Hall. lia.
    + split; [assumption |]. rewrite Hn, range_length. lia.
Qed.

Lemma permanent_reject_is_retried_witness :
  snd (_make_request (mkConfig (Some true) (Some 3)) init
         (fun _ => Response 200 (Some (-400)))) = RaiseExhausted 3 /\
  requests_sent (fst (_make_request (mkConfig (Some true) (Some 3)) init
         (fun _ => Response 200 (Some (-400))))) = 3 + 1.
Proof.
  apply (permanent_reject_is_retried (mkConfig (Some true) (Some 3)) init
           (fun _ => Response 200 (Some (-400)))).
  - reflexivity.
  - simpl. lia.
  - intros attempt _. reflexivity.
Defined.

(** C5, as the specification has it, fails: the reply [{code: -400}] with
    status 200 is a permanent rejection, and the call does not end with the
    first request; it sends four and then gives up. *)
Lemma permanent_reject_not_surfaced :
  let config := mkConfig (Some true) (Some 3) in
  let server := fun _ : Z => Response 200 (Some (-400)) in
  permanent_reject (server 0) = true /\
  requests_sent (fst (_make_request config init server)) = 4 /\
  requests_sent (fst (_make_request config init server)) <> 1 /\
  snd (_make_request config init server) = RaiseExhausted 3.
Proof. vm_compute. repeat split; congruence. Qed.

End TransportFacts.

(** ** The relation store *)

Section StoreFacts.
Import Py Store.

Lemma append_uid_lookup (key uid : string) (d : gmap string (list string))
    (k : string) :
  default [] (append_uid key uid d !! k) =
  if decide (k = key) then default [] (d !! key) ++ [uid]
  else default [] (d !! k).
Proof.
  unfold append_uid. case_decide as E.
  - subst k. now rewrite lookup_insert_eq.
  - now rewrite lookup_insert_ne by congruence.
Qed.

(** The ids under a key after [index_prefixes]: those that were there, and
    the new id when the key is one of the prefixes taken. *)
Lemma index_prefixes_In (s uid : string) (a b : Z)
    (d : gmap string (list string)) (p x : string) :
  In x (default [] (index_prefixes s uid a b d !! p)) <->
  In x (default [] (d !! p)) \/
  (x = uid /\ exists i, a <= i < b /\ p = take (Z.to_nat i) s).
Proof.
  unfold index_prefixes.
  assert (G : forall l d,
    In x (default [] (fold_left
            (fun d i => append_uid (take (Z.to_nat i) s) uid d) l d !! p)) <->
    In x (default [] (d !! p)) \/
    (x = uid /\ exists i, In i l /\ p = take (Z.to_nat i) s)).
  { clear d. induction l as [| i l IH]; intros d; cbn [fold_left].
    - split; [now left | intros [H | (_ & i & [] & _)]; exact H].
    - rewrite IH, append_uid_lookup. case_decide as E.
      + rewrite in_app_iff. cbn [In]. split.
        * intros [[H | [H | []]] | (Hx & j & Hj & Hp)].
          -- left. now rewrite E.
          -- right. split; [now symmetry |]. exists i. split; [now left | exact E].
          -- right. split; [exact Hx |]. exists j. split; [now right | exact Hp].
        * intros [H | (Hx & j & [Hj | Hj] & Hp)].
          -- left. left. now rewrite <- E.
          -- left. right. left. now symmetry.
          -- right. split; [exact Hx |]. now exists j.
      + split.
        * intros [H | (Hx & j & Hj & Hp)]; [now left |].
          right. split; [exact Hx |]. exists j. split; [now right | exact Hp].
        * intros [H | (Hx & j & [Hj | Hj] & Hp)]; [now left | |].
          -- subst j. contradiction.
          -- right. split; [exact Hx |]. now exists j. }
  rewrite G. setoid_rewrite range_In. reflexivity.
Qed.

Lemma process_user_by_name (b : building) (u : user) :
  b_by_name (process_user b u) =
  if truthy (uid_of u)
  then index_prefixes (lower (uname_of u)) (uid_of u) 1
         (Z.min (len (lower (uname_of u)) + 1) 20) (b_by_name b)
  else b_by_name b.
Proof. unfold process_user. now destruct (truthy (uid_of u)). Qed.


Lemma uids_under_with_total (d : gmap string (list string)) (p : string) :
  uids_under (with_total d) p =
  if decide (p = total_key) then [] else default [] (d !! p).
Proof.
  unfold uids_under, with_total. case_decide as E.
  - subst p. now rewrite lookup_insert_eq.
  - rewrite lookup_insert_ne by congruence. rewrite lookup_fmap.
    now destruct (d !! p).
Qed.


(** C1 at a name of twenty characters: the prefixes of the lengths 1 to 19
    lead to the id, the prefix of length 20 (the whole name) is no key of
    the index. *)
Lemma by_name_misses_prefix_20 :
  let name := "abcdefghijklmnopqrst" in
  let raw_list :=
    [mkUser None (Some (IdInt 1)) (Some name) None None None None None None] in
  let d := by_name (index (process_data "" raw_list)) in
  len (lower name) = 20 /\
  Z.min 20 (len name) = 20 /\
  uids_under d (take 19 (lower name)) = ["1"] /\
  uids_under d (take 20 (lower name)) = [] /\
  d !! take 20 (lower name) = None.
Proof. vm_compute. repeat split. Qed.

(** The index of the ids, built by the next lines of the same loop, does
    keep the prefix of length 20. *)
Lemma by_uid_keeps_prefix_20 :
  let id := "12345678901234567890" in
  let raw_list :=
    [mkUser (Some (IdStr id)) None (Some "Ann") None None None None None None] in
  let d := by_uid (index (process_data "" raw_list)) in
  len id = 20 /\ uids_under d (take 20 id) = [id].
Proof. vm_compute. repeat split. Qed.

(** [total_count] is the length of the input. *)
Lemma total_count_is_input_length (now : string) (raw_list : list user) :
  total_count (process_data now raw_list) = Z.of_nat (length raw_list).
Proof. reflexivity. Qed.

(** C4 at two entries with one id, and at an entry without an id: the
    count stored is that of the input, not that of the [users] map. *)
Lemma total_count_not_users_size :
  let a := mkUser None (Some (IdInt 7)) (Some "Ann") None None None None None None in
  let b := mkUser None (Some (IdInt 7)) (Some "Anna") None None None None None None in
  let c := mkUser None None (Some "Nobody") None None None None None None in
  (total_count (process_data "" [a; b]) = 2 /\
   size (users (process_data "" [a; b])) = 1%nat) /\
  (total_count (process_data "" [c]) = 1 /\
   size (users (process_data "" [c])) = 0%nat).
Proof. vm_compute. repeat split. Qed.

End StoreFacts.

Section UsersFacts.
Import Py Store.

Lemma process_user_users (b : building) (u : user) :
  b_users (process_user b u) = b_users b \/
  (uid_of u <> "" /\ exists info, b_users (process_user b u) = <[uid_of u := info]> (b_users b)).
Proof.
  unfold process_user. destruct (truthy (uid_of u)) eqn:T; cbn [negb].
  - right. split; [intros E; apply truthy_false in E; congruence |].
    eexists. reflexivity.
  - now left.
Qed.

(** The keys of [users] are the non-empty ids of the input. *)
Lemma users_keys_fold (raw_list : list user) (b : building) (x : string) :
  is_Some (b_users (fold_left process_user raw_list b) !! x) <->
  is_Some (b_users b !! x) \/ (x <> "" /\ exists u, In u raw_list /\ uid_of u = x).
Proof.
  revert b. induction raw_list as [| u raw_list IH]; intros b; cbn [fold_left].
  - split; [now left | intros [H | (_ & u & [] & _)]; exact H].
  - rewrite IH.
    destruct (process_user_users b u) as [E | (Hne & info & E)]; rewrite E.
    + split.
      * intros [H | (Hx & v & Hv & Hid)]; [now left |].
        right. split; [exact Hx |]. exists v. split; [now right | exact Hid].
      * intros [H | (Hx & v & [Hv | Hv] & Hid)]; [now left | |].
        -- subst v. unfold process_user in E.
           destruct (truthy (uid_of u)) eqn:T; cbn [negb] in E.
           ++ left. cbn [b_users] in E. rewrite <- E, Hid.
              rewrite lookup_insert_eq. now eexists.
           ++ apply truthy_false in T. congruence.
        -- right. split; [exact Hx |]. now exists v.
    + rewrite lookup_insert_is_Some. split.
      * intros [[H | [_ H]] | (Hx & v & Hv & Hid)].
        -- right. subst x. split; [exact Hne |]. exists u. split; [now left | reflexivity].
        -- now left.
        -- right. split; [exact Hx |]. exists v. split; [now right | exact Hid].
      * intros [H | (Hx & v & [Hv | Hv] & Hid)].
        -- left. destruct (decide (uid_of u = x)); [now left | now right].
        -- subst v. left. now left.
        -- right. split; [exact Hx |]. now exists v.
Qed.

(** The keys of [users] in a snapshot are exactly the non-empty ids of the
    input entries: every entry with an id is kept under it, and an entry
    without one is in no way present. *)
Lemma users_keys (now : string) (raw_list : list user) (x : string) :
  is_Some (users (process_data now raw_list) !! x) <->
  x <> "" /\ exists u, In u raw_list /\ uid_of u = x.
Proof.
  unfold process_data. cbn [users]. rewrite users_keys_fold.
  cbn [empty_building b_users]. rewrite lookup_empty. split.
  - intros [H | H]; [destruct H; discriminate | exact H].
  - now right.
Qed.

(** [users] never has more entries than the input. *)
Lemma users_size_fold (raw_list : list user) (b : building) :
  (size (b_users (fold_left process_user raw_list b))
   <= size (b_users b) + length raw_list)%nat.
Proof.
  revert b. induction raw_list as [| u raw_list IH]; intros b; cbn [fold_left length].
  - lia.
  - specialize (IH (process_user b u)).
    destruct (process_user_users b u) as [E | (_ & info & E)]; rewrite E in IH.
    + lia.
    + rewrite map_size_insert in IH.
      destruct (b_users b !! uid_of u); cbn [id] in IH; unfold id in IH; lia.
Qed.

Lemma users_size_le (now : string) (raw_list : list user) :
  Z.of_nat (size (users (process_data now raw_list)))
  <= total_count (process_data now raw_list).
Proof.
  unfold process_data. cbn [users total_count].
  pose proof (users_size_fold raw_list empty_building) as H.
  cbn [empty_building b_users] in H. rewrite map_size_empty in H. lia.
Qed.

End UsersFacts.

Section ObserverFacts.
Import Store.
Context {W D : Type}.

Lemma notify_observers_called (obs : observers W D) (event : string)
    (data : D) (w : W) :
  (forall name cb, In (name, cb) obs ->
     forall w' e, snd (cb event data w') <> RaisesBaseException e) ->
  snd (notify_observers obs event data w) = None /\
  called (snd (fst (notify_observers obs event data w))) = map fst obs.
Proof.
  revert w. induction obs as [| [name cb] obs IH]; intros w Hno.
  - split; reflexivity.
  - cbn [notify_observers].
    assert (Hrest : forall name cb, In (name, cb) obs ->
              forall w' e, snd (cb event data w') <> RaisesBaseException e)
      by (intros n c Hin; apply (Hno n c); now right).
    pose proof (Hno name cb (or_introl eq_refl) w) as Hcb.
    destruct (cb event data w) as [w' [| e | e]]; cbn [snd] in Hcb.
    + destruct (IH w' Hrest) as [Hx Hc].
      destruct (notify_observers obs event data w') as [[w'' ns] x].
      cbn [fst snd] in *. split; [exact Hx |].
      cbn [called map fst]. now rewrite Hc.
    + destruct (IH w' Hrest) as [Hx Hc].
      destruct (notify_observers obs event data w') as [[w'' ns] x].
      cbn [fst snd] in *. split; [exact Hx |].
      cbn [called map fst]. now rewrite Hc.
    + now contradiction (Hcb e).
Qed.



End ObserverFacts.

Section ObserverRegistry.
Import Store.
Context {W D : Type}.

Lemma register_observer_names (obs : observers W D) (name : string)
    (cb : callback W D) (n : string) :
  In n (map fst (register_observer obs name cb)) <->
  In n (map fst obs) \/ n = name.
Proof.
  induction obs as [| [m c] obs IH]; cbn [register_observer map fst In].
  - intuition congruence.
  - destruct (String.eqb_spec m name) as [-> | Hne]; cbn [map fst In].
    + intuition congruence.
    + rewrite IH. tauto.
Qed.

(** The registry stays a [dict]: registering keeps the names distinct. *)
Lemma register_observer_NoDup (obs : observers W D) (name : string)
    (cb : callback W D) :
  List.NoDup (map fst obs) ->
  List.NoDup (map fst (register_observer obs name cb)).
Proof.
  induction obs as [| [m c] obs IH]; intros Hnd; cbn [register_observer].
  - cbn. constructor; [intros [] | constructor].
  - inversion Hnd as [| ? ? Hnotin Hnd']; subst.
    destruct (String.eqb_spec m name) as [-> | Hne]; cbn [map fst].
    + now constructor.
    + constructor; [| now apply IH].
      rewrite register_observer_names. cbn [fst] in Hnotin. intuition congruence.
Qed.

End ObserverRegistry.


(** C9, as the specification has it, fails for a callback that raises
    outside [Exception] ([KeyboardInterrupt], [SystemExit],
    [GeneratorExit] or a class derived from [BaseException]): the handler
    [except Exception] lets it through, the exception leaves
    [notify_observers], and the observer registered after it is never
    called. *)
Lemma notify_observers_base_exception :
  let ok : Store.callback (list string) unit :=
    fun event _ w => (event :: w, Store.Returns) in
  let worse : Store.callback (list string) unit :=
    fun _ _ w => (w, Store.RaisesBaseException "KeyboardInterrupt") in
  let obs :=
    Store.register_observer
      (Store.register_observer (Store.register_observer [] "gui" ok)
         "worse" worse)
      "log" ok in
  List.NoDup (map fst obs) /\
  (map fst obs = ["gui"; "worse"; "log"]) /\
  (snd (Store.notify_observers obs "data_updated" tt [])
   = Some "KeyboardInterrupt") /\
  (Store.called (snd (fst (Store.notify_observers obs "data_updated" tt [])))
   = ["gui"; "worse"]) /\
  (~ In "log"
       (Store.called
          (snd (fst (Store.notify_observers obs "data_updated" tt []))))) /\
  (Store.called (snd (fst (Store.notify_observers obs "data_updated" tt [])))
   <> map fst obs).
Proof.
  intros ok worse obs. split; [| split; [| split; [| split; [| split]]]].
  - repeat apply register_observer_NoDup. constructor.
  - reflexivity.
  - reflexivity.
  - reflexivity.
  - cbn. intros [H | [H | []]]; discriminate.
  - cbn. discriminate.
Qed.

(** ** The search service *)

Section SliceFacts.
Import Py.
Context {A : Type}.

(** A slice with bounds that are not negative is a plain window. *)
Lemma slice_window (l : list A) (a b : Z) :
  0 <= a -> a <= b ->
  slice l a b = firstn (Z.to_nat (b - a)) (skipn (Z.to_nat a) l).
Proof.
  intros Ha Hab. unfold slice, clip.
  destruct (Z.ltb_spec a 0); [lia |]. destruct (Z.ltb_spec b 0); [lia |].
  set (n := Z.of_nat (length l)).
  destruct (Z_le_gt_dec n a) as [Hna | Hna].
  - rewrite !skipn_all2 by lia. now rewrite !firstn_nil.
  - replace (Z.min a n) with a by lia.
    destruct (Z_le_gt_dec b n) as [Hbn | Hbn].
    + now replace (Z.min b n) with b by lia.
    + replace (Z.min b n) with n by lia.
      rewrite !firstn_all2; [reflexivity | |]; rewrite length_skipn; lia.
Qed.

(** [l[-k:]] for a positive [k]: the last [k] entries. *)
Lemma slice_from_last (l : list A) (k : Z) :
  0 < k -> slice_from l (- k) = skipn (length l - Z.to_nat k) l.
Proof.
  intros Hk. unfold slice_from, clip.
  destruct (Z.ltb_spec (- k) 0); [| lia]. f_equal. lia.
Qed.

Lemma slice_from_length (l : list A) (k : Z) :
  0 < k -> (length (slice_from l (- k)) <= Z.to_nat k)%nat.
Proof. intros Hk. rewrite slice_from_last, length_skipn by assumption. lia. Qed.

End SliceFacts.

Section HistoryFacts.
Import Py Store Search.

Lemma list_remove_In (x y : string) (l : list string) :
  In y (list_remove x l) -> In y l.
Proof.
  induction l as [| z l IH]; cbn [list_remove]; [tauto |].
  destruct (String.eqb x z); cbn [In]; tauto.
Qed.

Lemma list_remove_NoDup (x : string) (l : list string) :
  List.NoDup l -> List.NoDup (list_remove x l) /\ ~ In x (list_remove x l).
Proof.
  induction l as [| z l IH]; cbn [list_remove]; intros Hnd.
  - split; [constructor | tauto].
  - inversion Hnd as [| ? ? Hz Hl]; subst.
    destruct (String.eqb_spec x z) as [-> | Hne].
    + split; assumption.
    + destruct (IH Hl) as [IH1 IH2]. split.
      * constructor; [| assumption]. intros H. apply Hz.
        now apply list_remove_In in H.
      * cbn [In]. intros [E | H]; [congruence | contradiction].
Qed.

Lemma list_remove_absent (x : string) (l : list string) :
  ~ In x l -> list_remove x l = l.
Proof.
  induction l as [| z l IH]; cbn [list_remove In]; intros H; [reflexivity |].
  destruct (String.eqb_spec x z) as [-> | Hne]; [tauto |].
  f_equal. apply IH. tauto.
Qed.

Lemma not_blank_truthy (query : string) :
  strip query <> "" -> truthy query && truthy (strip query) = true.
Proof.
  intros Hq.
  assert (truthy (strip query) = true) as ->
    by (destruct (truthy (strip query)) eqn:T;
        [reflexivity | apply truthy_false in T; contradiction]).
  destruct query; [now contradiction Hq | reflexivity].
Qed.

(** The history in memory after a query that is not blank: the stripped
    query in front, its earlier occurrence gone. *)
Lemma add_to_history_front (self : SearchService) (query : string) :
  strip query <> "" ->
  search_history (add_to_history self query) =
  strip query :: list_remove (strip query) (search_history self).
Proof.
  intros Hq. unfold add_to_history.
  rewrite (not_blank_truthy query Hq). unfold save_history. cbn [fs_writable search_history].
  destruct (list_in (strip query) (search_history self)) eqn:E.
  - now destruct (fs_writable self).
  - assert (~ In (strip query) (search_history self)) as Hnot
      by (rewrite <- list_in_true; congruence).
    rewrite (list_remove_absent _ _ Hnot). now destruct (fs_writable self).
Qed.

(** A history without repetitions stays so. *)
Lemma add_to_history_NoDup (self : SearchService) (query : string) :
  List.NoDup (search_history self) ->
  List.NoDup (search_history (add_to_history self query)).
Proof.
  intros Hnd. destruct (string_dec (strip query) "") as [E | Hq].
  - unfold add_to_history. rewrite E. cbn [truthy]. now rewrite andb_false_r.
  - rewrite add_to_history_front by assumption.
    destruct (list_remove_NoDup (strip query) _ Hnd). now constructor.
Qed.

(** What is written to the file: the last fifty entries of the history
    in memory, so never more than fifty. *)
Lemma add_to_history_file (self : SearchService) (query : string) :
  strip query <> "" -> fs_writable self = true ->
  history_file (add_to_history self query) =
  Some (skipn (length (search_history (add_to_history self query)) - 50)
              (search_history (add_to_history self query))).
Proof.
  intros Hq Hw. unfold add_to_history.
  rewrite (not_blank_truthy query Hq). unfold save_history.
  cbn [fs_writable search_history]. rewrite Hw.
  cbn [history_file search_history].
  now rewrite (slice_from_last _ 50) by lia.
Qed.

(** Once the history in memory has more than fifty entries, the entry
    just put in front is not among those written. *)
Lemma add_to_history_drops_newest (self : SearchService) (query : string) :
  strip query <> "" -> fs_writable self = true ->
  List.NoDup (search_history self) ->
  (50 <= length (list_remove (strip query) (search_history self)))%nat ->
  exists saved, history_file (add_to_history self query) = Some saved /\
                length saved = 50%nat /\ ~ In (strip query) saved.
Proof.
  intros Hq Hw Hnd Hlen.
  rewrite add_to_history_file by assumption.
  rewrite add_to_history_front by assumption.
  eexists. split; [reflexivity |].
  destruct (list_remove_NoDup (strip query) _ Hnd) as [_ Hnot].
  set (r := list_remove (strip query) (search_history self)) in *.
  cbn [length].
  replace (S (length r) - 50)%nat with (S (length r - 50)) by lia.
  cbn [skipn]. split.
  - rewrite length_skipn. lia.
  - intros H. apply Hnot.
    rewrite <- (firstn_skipn (length r - 50) r). apply in_or_app. now right.
Qed.

(** C6 at a history of fifty queries [q1 .. q50] and the new query
    [new]: in memory the new query comes first, and the file has the fifty
    old queries, without the new one. *)
Lemma save_history_keeps_oldest :
  let old := map (fun n => "q" +:+ str_of_Z n) (range 1 51) in
  let self := mkSearchService [] old (Some old) true in
  let self' := add_to_history self "new" in
  length old = 50%nat /\
  search_history self' = "new" :: old /\
  history_file self' = Some old /\
  list_in "new" old = false /\
  history_file self' <> Some (slice_to (search_history self') 50).
Proof. vm_compute. repeat split. discriminate. Qed.

End HistoryFacts.

Section SearchFacts.
Import Py Store Search.

(** [(total + page_size - 1) // page_size] is the number of pages needed. *)
Lemma total_pages_ceil (total page_size : Z) :
  1 <= page_size ->
  ((total + page_size - 1) / page_size - 1) * page_size < total
  <= (total + page_size - 1) / page_size * page_size.
Proof.
  intros Hps.
  pose proof (Z.div_mod (total + page_size - 1) page_size ltac:(lia)) as E.
  pose proof (Z.mod_pos_bound (total + page_size - 1) page_size ltac:(lia)) as B.
  nia.
Qed.

(** What [search] computes for a query that is not blank. *)
Lemma search_unfold (self : SearchService) (query : string) (exact : bool)
    (page page_size : Z) :
  strip query <> "" -> page_size <> 0 ->
  search self query exact page page_size =
  let matches := select self (lower (strip query)) exact in
  let total := Z.of_nat (length matches) in
  let total_pages := (total + page_size - 1) / page_size in
  let page' := Z.min page (Z.max 1 total_pages) in
  Return {| results := slice matches ((page' - 1) * page_size)
                             ((page' - 1) * page_size + page_size);
            total := total; page := page'; page_size := page_size;
            total_pages := total_pages; query := strip query;
            timed := true |}
         (add_to_history self (strip query)).
Proof.
  intros Hq Hps. unfold search.
  pose proof (not_blank_truthy query Hq) as T.
  apply andb_prop in T as [-> ->]. cbn [negb orb].
  destruct (Z.eqb_spec page_size 0); [contradiction | reflexivity].
Qed.

Lemma search_blank (self : SearchService) (query : string)
    (exact : bool) (page page_size : Z) :
  strip query = "" ->
  search self query exact page page_size =
  Return {| results := []; total := 0; page := 1; page_size := page_size;
            total_pages := 0; query := ""; timed := false |} self.
Proof.
  intros Hq. unfold search. rewrite Hq. cbn [truthy negb].
  now rewrite orb_true_r.
Qed.

(** C7. For every data list, history and pagination parameters, [search]
    with an empty or blank query returns no results, [total = 0] and
    [total_pages = 0], and leaves the object, its history and the history
    file as they were. *)
Theorem search_blank_query (self : SearchService) (query : string)
    (exact : bool) (page page_size : Z) :
  strip query = "" ->
  search self query exact page page_size =
  Return {| results := []; total := 0; page := 1; page_size := page_size;
            total_pages := 0; query := ""; timed := false |} self.
Proof. apply search_blank. Qed.

Lemma search_blank_query_witness :
  let self :=
    mkSearchService
      [mkUser (Some (IdInt 1)) None (Some "Ann") (Some "") None None None None None]
      ["ann"] (Some ["ann"]) true in
  search self "   " false 3 0 =
  Return {| results := []; total := 0; page := 1; page_size := 0;
            total_pages := 0; query := ""; timed := false |} self.
Proof.
  intros self. apply (search_blank_query self "   " false 3 0). reflexivity.
Defined.

(** C10. For every data list, query and page, [search] returns its result
    when [page_size >= 1]: the division is by a non-zero number. *)
Theorem search_returns (self : SearchService) (query : string) (exact : bool)
    (page page_size : Z) :
  1 <= page_size ->
  exists r self', search self query exact page page_size = Return r self'.
Proof.
  intros Hps. destruct (string_dec (strip query) "") as [E | Hq].
  - rewrite search_blank by assumption. eauto.
  - rewrite search_unfold by (assumption || lia). cbv zeta. eauto.
Qed.

Lemma search_returns_witness :
  exists r self',
    search (mkSearchService [] [] None true) "ann" false (-7) 1 = Return r self'.
Proof.
  apply (search_returns (mkSearchService [] [] None true) "ann" false (-7) 1).
  lia.
Defined.

(** With [page_size = 0] and a query that is not blank the division
    raises. *)
Lemma search_page_size_zero (self : SearchService) (query : string)
    (exact : bool) (page : Z) :
  strip query <> "" ->
  search self query exact page 0 = ZeroDivisionError.
Proof.
  intros Hq. unfold search.
  pose proof (not_blank_truthy query Hq) as T.
  now apply andb_prop in T as [-> ->].
Qed.

(** C3, as the code has it.  For every data list, every query that is not
    blank and every [page_size >= 1], [search] returns the page number
    [min(page, max(1, total_pages))] with [total_pages] the number of pages
    needed.  For a requested page of at least 1 this number lies in
    [1 .. max(1, total_pages)], a page above [total_pages] becomes the last
    page, and the results are the window of that page in the matches, not
    empty when there is a match.  A requested page below 1 is returned as
    it is. *)
Theorem search_page_clamped (self : SearchService) (query : string)
    (exact : bool) (page page_size : Z) :
  strip query <> "" -> 1 <= page_size ->
  exists r self',
    search self query exact page page_size = Return r self' /\
    let matches := select self (lower (strip query)) exact in
    total r = Z.of_nat (length matches) /\
    (total_pages r - 1) * page_size < total r <= total_pages r * page_size /\
    Search.page r = Z.min page (Z.max 1 (total_pages r)) /\
    (total_pages r < page -> Search.page r = Z.max 1 (total_pages r)) /\
    (page < 1 -> Search.page r = page) /\
    (1 <= page ->
       1 <= Search.page r <= Z.max 1 (total_pages r) /\
       results r = firstn (Z.to_nat page_size)
                     (skipn (Z.to_nat ((Search.page r - 1) * page_size)) matches) /\
       (0 < total r -> results r <> [])).
Proof.
  intros Hq Hps. rewrite search_unfold by (assumption || lia). cbv zeta.
  eexists. eexists. split; [reflexivity |].
  cbn [results total Search.page total_pages].
  set (matches := select self (lower (strip query)) exact).
  set (total := Z.of_nat (length matches)).
  pose proof (total_pages_ceil total page_size Hps) as Hceil.
  set (tp := (total + page_size - 1) / page_size) in *.
  assert (0 <= total) as Htot by (subst total; lia).
  assert (0 <= tp) as Htp by nia.
  repeat split; try lia.
  - set (p := Z.min page (Z.max 1 tp)).
    rewrite slice_window by nia. f_equal. f_equal. lia.
  - intros Hpos. set (p := Z.min page (Z.max 1 tp)).
    assert (1 <= p <= tp) as Hp by (subst p; nia).
    assert ((p - 1) * page_size < total) as Hstart by nia.
    rewrite slice_window by nia. intros E.
    apply (f_equal (@length user)) in E.
    rewrite length_firstn, length_skipn in E. cbn [length] in E.
    subst total. lia.
Qed.

Lemma search_page_clamped_witness :
  exists r self',
    search (mkSearchService
              [mkUser (Some (IdInt 1)) None (Some "Ann") (Some "") None None None None None;
               mkUser (Some (IdInt 2)) None (Some "Anna") (Some "") None None None None None;
               mkUser (Some (IdInt 3)) None (Some "Hannah") (Some "") None None None None None]
              [] None true) "an" true 9 2 = Return r self' /\
    1 <= Search.page r <= Z.max 1 (total_pages r) /\
    (0 < total r -> results r <> []).
Proof.
  destruct (search_page_clamped
              (mkSearchService
                 [mkUser (Some (IdInt 1)) None (Some "Ann") (Some "") None None None None None;
                  mkUser (Some (IdInt 2)) None (Some "Anna") (Some "") None None None None None;
                  mkUser (Some (IdInt 3)) None (Some "Hannah") (Some "") None None None None None]
                 [] None true) "an" true 9 2)
    as (r & self' & E & _ & _ & _ & _ & _ & Hin);
    [vm_compute; discriminate | lia |].
  destruct Hin as (Hrange & _ & Hfull); [lia |].
  exists r, self'. split; [exact E |]. split; [exact Hrange | exact Hfull].
Defined.

(** C3, as the specification has it, fails below 1: with three matches
    and two per page, the requested page 0 comes back as page 0 with no
    results, and the requested page -1 comes back as page -1 with the first
    match alone. *)
Lemma search_page_below_one :
  let self :=
    mkSearchService
      [mkUser (Some (IdInt 1)) None (Some "Ann") (Some "") None None None None None;
       mkUser (Some (IdInt 2)) None (Some "Anna") (Some "") None None None None None;
       mkUser (Some (IdInt 3)) None (Some "Hannah") (Some "") None None None None None]
      [] None true in
  (exists r self',
     search self "an" true 0 2 = Return r self' /\
     total r = 3 /\ total_pages r = 2 /\ Search.page r = 0 /\
     ~ (1 <= Search.page r <= Z.max 1 (total_pages r)) /\
     results r = []) /\
  (exists r self',
     search self "an" true (-1) 2 = Return r self' /\
     Search.page r = -1 /\
     ~ (1 <= Search.page r <= Z.max 1 (total_pages r)) /\
     map uname (results r) = [Some "Ann"]).
Proof.
  split; eexists; eexists; (split; [vm_compute; reflexivity |]);
    vm_compute; repeat split; intros [H _]; apply H; reflexivity.
Qed.

End SearchFacts.

(** ** The transport wrapper: the whole retry loop *)

Section TransportLoop.
Import Governor Transport.

Lemma one_attempt_accepted (anti_control : AntiAntiControl)
    (max_retries attempt : Z) (r : reply) :
  accepted r = true ->
  one_attempt anti_control max_retries attempt r =
  ([BeforeRequest; Request; AfterRequest], Some r).
Proof.
  destruct r as [status_code body_code |]; [| discriminate].
  unfold accepted, one_attempt. intros H.
  destruct (status_code =? 200); [| discriminate].
  destruct (Z.eqb_spec (default (-1) body_code) 0) as [E | _]; [reflexivity |].
  destruct (Z.eqb_spec (default (-1) body_code) 22013) as [E | _];
    [| discriminate].
  rewrite E. reflexivity.
Qed.

Lemma one_attempt_rejected (anti_control : AntiAntiControl)
    (max_retries attempt : Z) (r : reply) :
  accepted r = false ->
  snd (one_attempt anti_control max_retries attempt r) = None.
Proof.
  destruct r as [status_code body_code |]; [| reflexivity].
  unfold accepted, one_attempt. intros H.
  destruct (status_code =? 200).
  - destruct (default (-1) body_code =? 0); [discriminate |].
    destruct (default (-1) body_code =? 22013); [discriminate |].
    destruct (Py.Z_in (default (-1) body_code) [-352; 412]); [| reflexivity].
    now destruct (should_retry anti_control (attempt + 1)
                    (Some (default (-1) body_code))).
  - now destruct (Py.Z_in status_code [412; 429]).
Qed.

(** Attempts that are all rejected leave the rest of the loop to decide. *)
Lemma attempts_skip_rejected (anti_control : AntiAntiControl)
    (max_retries : Z) (server : Z -> reply) (l1 l2 : list Z) :
  (forall a, In a l1 -> accepted (server a) = false) ->
  snd (attempts anti_control max_retries server (l1 ++ l2))
    = snd (attempts anti_control max_retries server l2) /\
  requests_sent (fst (attempts anti_control max_retries server (l1 ++ l2)))
    = Z.of_nat (length l1)
      + requests_sent (fst (attempts anti_control max_retries server l2)).
Proof.
  induction l1 as [| a l1 IH]; intros Hrej.
  - cbn [app length]. split; [reflexivity | lia].
  - destruct IH as [IHo IHn]; [intros b Hb; apply Hrej; now right |].
    pose proof (one_attempt_sends_once anti_control max_retries a (server a))
      as Hone.
    pose proof (one_attempt_rejected anti_control max_retries a (server a)
                  (Hrej a (or_introl eq_refl))) as Hnone.
    cbn [app attempts].
    destruct (one_attempt anti_control max_retries a (server a)) as [evs o].
    cbn [fst snd] in Hone, Hnone. subst o.
    destruct (attempts anti_control max_retries server (l1 ++ l2)) as [evs' o'].
    cbn [fst snd] in *. split; [assumption |].
    rewrite requests_sent_app, Hone, IHn. cbn [length]. lia.
Qed.

Lemma attempts_requests_le (anti_control : AntiAntiControl)
    (max_retries : Z) (server : Z -> reply) (todo : list Z) :
  requests_sent (fst (attempts anti_control max_retries server todo))
  <= Z.of_nat (length todo).
Proof.
  induction todo as [| a todo IH]; [unfold requests_sent; simpl; lia |].
  pose proof (one_attempt_sends_once anti_control max_retries a (server a))
    as Hone.
  cbn [attempts length].
  destruct (one_attempt anti_control max_retries a (server a)) as [evs [r |]];
    cbn [fst] in *.
  - lia.
  - destruct (attempts anti_control max_retries server todo) as [evs' o'].
    cbn [fst] in *. rewrite requests_sent_app. lia.
Qed.

Lemma map_seq_from (f : nat -> Z) (n s : nat) :
  map f (seq s n) = map (fun j => f (s + j)%nat) (seq 0 n).
Proof.
  revert s. induction n as [| n IH]; intros s; [reflexivity |].
  cbn [seq map]. f_equal; [f_equal; lia |].
  rewrite IH, <- seq_shift, map_map.
  apply map_ext. intros j. f_equal. lia.
Qed.

Lemma Py_range_nil (a : Z) : Py.range a a = [].
Proof. unfold Py.range. now rewrite Z.sub_diag. Qed.

Lemma range_split (a k b : Z) :
  a <= k < b -> Py.range a b = Py.range a k ++ k :: Py.range (k + 1) b.
Proof.
  intros H. unfold Py.range.
  replace (Z.to_nat (b - a))
    with (Z.to_nat (k - a) + S (Z.to_nat (b - (k + 1))))%nat by lia.
  rewrite seq_app, map_app. f_equal.
  rewrite map_seq_from. cbn [seq map]. f_equal; [lia |].
  rewrite <- seq_shift, map_map.
  apply map_ext. intros j. lia.
Qed.

(** X1. The request never goes out more often than the configured budget
    allows, whatever the server answers: with the governor on it is sent
    at most [max_retries + 1] times (and never a negative number of
    times: not at all when [max_retries] is below 0); with the governor
    off it is sent exactly once. *)
Theorem make_request_within_budget (config : anti_control_config)
    (anti_control : AntiAntiControl) (server : Z -> reply) :
  if default true (enabled config)
  then 0 <= requests_sent (fst (_make_request config anti_control server))
         <= Z.max 0 (default 3 (cfg_max_retries config) + 1)
  else requests_sent (fst (_make_request config anti_control server)) = 1.
Proof.
  unfold _make_request. destruct (default true (enabled config)); cbn [negb].
  - pose proof (attempts_requests_le anti_control
                  (default 3 (cfg_max_retries config)) server
                  (Py.range 0 (default 3 (cfg_max_retries config) + 1))) as H.
    rewrite range_length in H. unfold requests_sent in *. lia.
  - assert (requests_sent [Request] = 1) as E by reflexivity.
    destruct (server 0); cbn [fst]; rewrite E; lia.
Qed.

(** With the governor on, the call returns the first reply that has the
    status 200 and the code 0 or 22013, after one request for it and one
    for each reply before it. *)
Theorem make_request_first_accepted (config : anti_control_config)
    (anti_control : AntiAntiControl) (server : Z -> reply) (k : Z) :
  default true (enabled config) = true ->
  0 <= k <= default 3 (cfg_max_retries config) ->
  (forall j, 0 <= j < k -> accepted (server j) = false) ->
  accepted (server k) = true ->
  snd (_make_request config anti_control server) = Return (server k) /\
  requests_sent (fst (_make_request config anti_control server)) = k + 1.
Proof.
  intros Hon Hk Hrej Hacc. unfold _make_request. rewrite Hon. cbn [negb].
  set (m := default 3 (cfg_max_retries config)) in *.
  rewrite (range_split 0 k (m + 1)) by lia.
  destruct (attempts_skip_rejected anti_control m server (Py.range 0 k)
              (k :: Py.range (k + 1) (m + 1))) as [Ho Hn].
  { intros a Ha. apply range_In in Ha. apply Hrej. lia. }
  rewrite Ho, Hn, range_length. cbn [attempts].
  rewrite (one_attempt_accepted anti_control m k (server k) Hacc).
  cbn [fst snd]. split; [reflexivity |].
  assert (requests_sent [BeforeRequest; Request; AfterRequest] = 1) as ->
    by reflexivity.
  lia.
Qed.

Lemma make_request_first_accepted_witness :
  let server := fun a : Z =>
    if a =? 0 then Response 200 (Some (-352))
    else if a =? 1 then Response 429 None
    else Response 200 (Some 0) in
  snd (_make_request (mkConfig None None) init server)
    = Return (Response 200 (Some 0)) /\
  requests_sent (fst (_make_request (mkConfig None None) init server)) = 2 + 1.
Proof.
  intros server.
  apply (make_request_first_accepted (mkConfig None None) init server 2).
  - reflexivity.
  - cbn. lia.
  - intros j Hj. assert (j = 0 \/ j = 1) as [-> | ->] by lia; reflexivity.
  - reflexivity.
Defined.

(** With the governor on, when no reply within the budget has the status
    200 with the code 0 or 22013 (rate limits, server errors, exceptions,
    rejections alike), the call sends the request [max_retries + 1] times
    and ends in the exception raised after the loop. *)
Theorem make_request_never_accepted (config : anti_control_config)
    (anti_control : AntiAntiControl) (server : Z -> reply) :
  default true (enabled config) = true ->
  (forall j, 0 <= j <= default 3 (cfg_max_retries config) ->
             accepted (server j) = false) ->
  snd (_make_request config anti_control server)
    = RaiseExhausted (default 3 (cfg_max_retries config)) /\
  requests_sent (fst (_make_request config anti_control server))
    = Z.max 0 (default 3 (cfg_max_retries config) + 1).
Proof.
  intros Hon Hrej. unfold _make_request. rewrite Hon. cbn [negb].
  set (m := default 3 (cfg_max_retries config)) in *.
  destruct (attempts_skip_rejected anti_control m server
              (Py.range 0 (m + 1)) []) as [Ho Hn].
  { intros a Ha. apply range_In in Ha. apply Hrej. lia. }
  rewrite app_nil_r in Ho, Hn. rewrite Ho, Hn, range_length.
  cbn [attempts fst snd]. split; [reflexivity |].
  assert (requests_sent [] = 0) as -> by reflexivity. lia.
Qed.

Lemma make_request_never_accepted_witness :
  snd (_make_request (mkConfig (Some true) (Some 3)) init
         (fun _ => Response 200 (Some (-352)))) = RaiseExhausted 3 /\
  requests_sent (fst (_make_request (mkConfig (Some true) (Some 3)) init
         (fun _ => Response 200 (Some (-352))))) = Z.max 0 (3 + 1).
Proof.
  apply (make_request_never_accepted (mkConfig (Some true) (Some 3)) init
           (fun _ => Response 200 (Some (-352)))).
  - reflexivity.
  - intros j _. reflexivity.
Defined.

Lemma attempts_return_accepted (anti_control : AntiAntiControl)
    (max_retries : Z) (server : Z -> reply) (todo : list Z) (r : reply) :
  snd (attempts anti_control max_retries server todo) = Return r ->
  exists k, In k todo /\ r = server k /\ accepted r = true.
Proof.
  induction todo as [| a todo IH]; cbn [attempts]; [discriminate |].
  destruct (accepted (server a)) eqn:Hacc.
  - rewrite (one_attempt_accepted _ _ _ _ Hacc). cbn [snd].
    intros E. injection E as <-. exists a. repeat split; [now left | assumption].
  - pose proof (one_attempt_rejected anti_control max_retries a (server a) Hacc)
      as Hnone.
    destruct (one_attempt anti_control max_retries a (server a)) as [evs o].
    cbn [snd] in Hnone. subst o.
    destruct (attempts anti_control max_retries server todo) as [evs' o'].
    cbn [snd] in *. intros E. destruct (IH E) as (k & Hk & Hr & Ha).
    exists k. repeat split; [now right | assumption | assumption].
Qed.

(** With the governor on, a response that the call returns is the reply to
    one of its attempts and has the status 200 with the code 0 or 22013: no
    other response ever reaches the caller. *)
Theorem make_request_returns_accepted_only (config : anti_control_config)
    (anti_control : AntiAntiControl) (server : Z -> reply) (r : reply) :
  default true (enabled config) = true ->
  snd (_make_request config anti_control server) = Return r ->
  accepted r = true /\
  exists k, 0 <= k <= default 3 (cfg_max_retries config) /\ r = server k.
Proof.
  intros Hon. unfold _make_request. rewrite Hon. cbn [negb]. intros E.
  destruct (attempts_return_accepted _ _ _ _ _ E) as (k & Hk & Hr & Ha).
  split; [assumption |]. exists k. apply range_In in Hk. split; [lia | assumption].
Qed.

Lemma make_request_returns_accepted_only_witness :
  accepted (Response 200 (Some 22013)) = true /\
  exists k, 0 <= k <= 3 /\
    Response 200 (Some 22013)
    = (fun a : Z => if a =? 0 then RequestException
                    else Response 200 (Some 22013)) k.
Proof.
  apply (make_request_returns_accepted_only (mkConfig None None) init
           (fun a : Z => if a =? 0 then RequestException
                         else Response 200 (Some 22013))).
  - reflexivity.
  - reflexivity.
Defined.

End TransportLoop.

Section TransportSleeps.
Import Governor Transport.

Lemma sleeps_made_app (a b : list event) :
  sleeps_made (a ++ b) = sleeps_made a + sleeps_made b.
Proof. unfold sleeps_made. rewrite List.filter_app, length_app. lia. Qed.

Lemma sleeps_made_cons (e : event) (l : list event) :
  sleeps_made (e :: l) = (if is_sleep e then 1 else 0) + sleeps_made l.
Proof.
  unfold sleeps_made. cbn [List.filter].
  destruct (is_sleep e); cbn [length]; lia.
Qed.

Lemma sleeps_made_nil : sleeps_made [] = 0.
Proof. reflexivity. Qed.

Lemma sleeps_made_loop_tail (max_retries attempt : Z) :
  sleeps_made (loop_tail max_retries attempt)
  = if attempt <? max_retries then 1 else 0.
Proof. unfold loop_tail. now destruct (attempt <? max_retries). Qed.

Ltac count_sleeps :=
  cbn [fst app];
  rewrite ?sleeps_made_cons, ?sleeps_made_loop_tail, ?sleeps_made_nil;
  cbn [is_sleep].

(** One pass sleeps at most once. *)
Lemma one_attempt_sleeps_le (anti_control : AntiAntiControl)
    (max_retries attempt : Z) (r : reply) :
  0 <= sleeps_made (fst (one_attempt anti_control max_retries attempt r)) <= 1.
Proof.
  unfold one_attempt. destruct r as [status_code body_code |].
  - repeat match goal with
           | |- context [if ?b then _ else _] => destruct b
           end; count_sleeps; try lia;
      destruct (attempt <? max_retries); lia.
  - destruct (attempt <? max_retries) eqn:E; count_sleeps; rewrite ?E; lia.
Qed.

(** A pass that does not return and is not the last one sleeps once. *)
Lemma one_attempt_sleeps_once (anti_control : AntiAntiControl)
    (max_retries attempt : Z) (r : reply) :
  accepted r = false -> attempt < max_retries ->
  sleeps_made (fst (one_attempt anti_control max_retries attempt r)) = 1.
Proof.
  intros Hrej Hlt. apply Z.ltb_lt in Hlt.
  unfold one_attempt, accepted in *. destruct r as [status_code body_code |].
  - destruct (status_code =? 200).
    + destruct (default (-1) body_code =? 0); [discriminate |].
      destruct (default (-1) body_code =? 22013); [discriminate |].
      destruct (Py.Z_in (default (-1) body_code) [-352; 412]).
      * destruct (should_retry anti_control (attempt + 1)
                    (Some (default (-1) body_code)));
          count_sleeps; rewrite ?Hlt; lia.
      * count_sleeps. rewrite Hlt. lia.
    + destruct (Py.Z_in status_code [412; 429]); count_sleeps; rewrite ?Hlt; lia.
  - rewrite Hlt. count_sleeps. lia.
Qed.

Lemma attempts_sleeps (anti_control : AntiAntiControl) (max_retries : Z)
    (server : Z -> reply) (l : list Z) (last : Z) :
  (forall a, In a l -> a < max_retries) ->
  requests_sent (fst (attempts anti_control max_retries server (l ++ [last]))) - 1
  <= sleeps_made (fst (attempts anti_control max_retries server (l ++ [last])))
  <= requests_sent (fst (attempts anti_control max_retries server (l ++ [last]))).
Proof.
  induction l as [| a l IH]; intros Hlt; cbn [app attempts].
  - pose proof (one_attempt_sends_once anti_control max_retries last
                  (server last)) as Hone.
    pose proof (one_attempt_sleeps_le anti_control max_retries last
                  (server last)) as Hsl.
    destruct (one_attempt anti_control max_retries last (server last))
      as [evs [r |]]; cbn [fst] in *; [lia |].
    rewrite app_nil_r. lia.
  - pose proof (one_attempt_sends_once anti_control max_retries a (server a))
      as Hone.
    destruct (accepted (server a)) eqn:Hacc.
    + rewrite (one_attempt_accepted _ _ _ _ Hacc). cbn [fst].
      assert (requests_sent [BeforeRequest; Request; AfterRequest] = 1) as ->
        by reflexivity.
      assert (sleeps_made [BeforeRequest; Request; AfterRequest] = 0) as ->
        by reflexivity.
      lia.
    + pose proof (one_attempt_sleeps_once anti_control max_retries a (server a)
                    Hacc (Hlt a (or_introl eq_refl))) as Hsl.
      pose proof (one_attempt_rejected anti_control max_retries a (server a)
                    Hacc) as Hnone.
      destruct (one_attempt anti_control max_retries a (server a)) as [evs o].
      cbn [fst snd] in *. subst o.
      specialize (IH (fun b Hb => Hlt b (or_intror Hb))).
      destruct (attempts anti_control max_retries server (l ++ [last]))
        as [evs' o'].
      cbn [fst] in *. rewrite requests_sent_app, sleeps_made_app. lia.
Qed.

(** With the governor on, the method sleeps between any two requests: it
    sleeps at least once less than it sends, and at most as often (a sleep
    after the last request, before giving up, is possible). *)
Theorem make_request_sleeps_between (config : anti_control_config)
    (anti_control : AntiAntiControl) (server : Z -> reply) :
  default true (enabled config) = true ->
  0 <= default 3 (cfg_max_retries config) ->
  requests_sent (fst (_make_request config anti_control server)) - 1
  <= sleeps_made (fst (_make_request config anti_control server))
  <= requests_sent (fst (_make_request config anti_control server)).
Proof.
  intros Hon Hm. unfold _make_request. rewrite Hon. cbn [negb].
  set (m := default 3 (cfg_max_retries config)) in *.
  rewrite (range_split 0 m (m + 1)) by lia.
  rewrite (Py_range_nil (m + 1)).
  apply attempts_sleeps. intros a Ha. apply range_In in Ha. lia.
Qed.

Lemma make_request_sleeps_between_witness :
  requests_sent (fst (_make_request (mkConfig None (Some 2)) init
                        (fun _ => Response 429 None))) - 1
  <= sleeps_made (fst (_make_request (mkConfig None (Some 2)) init
                         (fun _ => Response 429 None)))
  <= requests_sent (fst (_make_request (mkConfig None (Some 2)) init
                           (fun _ => Response 429 None))).
Proof.
  apply (make_request_sleeps_between (mkConfig None (Some 2)) init
           (fun _ => Response 429 None)).
  - reflexivity.
  - cbn. lia.
Defined.

End TransportSleeps.

(** ** Unfollowing and fetching *)

Section UnfollowFacts.
Import Governor Relation.

Lemma unfollowed_body (body_code : option Z) :
  unfollowed (Body body_code) = true <->
  default (-1) body_code = 0 \/ default (-1) body_code = 22015.
Proof.
  cbn [unfollowed]. rewrite orb_true_iff, !Z.eqb_eq. reflexivity.
Qed.

Lemma unfollow_retries_facts (server : nat -> posted) (todo : list Z)
    (code : Z) (n : nat) (ok : bool) (n' : nat) (ds : list Transport.delay) :
  unfollow_retries server todo code n = (ok, n', ds) ->
  (n <= n' <= n + length todo)%nat /\
  length ds = (n' - n)%nat /\
  (forall j, (n <= j < n')%nat -> unfollowed (server j) = true ->
             S j = n' /\ ok = true) /\
  (ok = true -> (n < n')%nat /\ unfollowed (server (n' - 1)%nat) = true).
Proof.
  revert code n ok n' ds.
  induction todo as [| attempt rest IH]; intros code n ok n' ds;
    cbn [unfollow_retries length].
  - intros E. injection E as <- <- <-.
    split; [lia |]. split; [cbn [length]; lia |].
    split; [intros j Hj; lia | discriminate].
  - destruct (server n) as [body_code |] eqn:Es.
    + assert (Hstop : (default (-1) body_code = 0
                       \/ default (-1) body_code = 22015) ->
                      (n <= S n <= n + S (length rest))%nat /\
                      length [Transport.RetryDelay (attempt + 1) (Some code)]
                      = (S n - n)%nat /\
                      (forall j, (n <= j < S n)%nat ->
                         unfollowed (server j) = true ->
                         S j = S n /\ true = true) /\
                      (true = true -> (n < S n)%nat /\
                         unfollowed (server (S n - 1)%nat) = true)).
      { intros Hc. split; [lia |]. split; [cbn [length]; lia |]. split.
        - intros j Hj _. split; [lia | reflexivity].
        - intros _. split; [lia |].
          replace (S n - 1)%nat with n by lia. rewrite Es.
          now apply unfollowed_body. }
      destruct (Z.eqb_spec (default (-1) body_code) 0) as [E0 | N0].
      { intros E. injection E as <- <- <-. apply Hstop. now left. }
      destruct (Z.eqb_spec (default (-1) body_code) 22015) as [E1 | N1].
      { intros E. injection E as <- <- <-. apply Hstop. now right. }
      clear Hstop.
      destruct (unfollow_retries server rest (default (-1) body_code) (S n))
        as [[ok1 n1] ds1] eqn:Er.
      intros E. injection E as <- <- <-.
      destruct (IH _ _ _ _ _ Er) as (Hn & Hd & Hfirst & Hok). cbn [length].
      assert (unfollowed (server n) = false) as Hn0.
      { destruct (unfollowed (server n)) eqn:Hu; [| reflexivity].
        rewrite Es in Hu. apply unfollowed_body in Hu. tauto. }
      split; [lia |]. split; [lia |]. split.
      * intros j Hj Hu. destruct (Nat.eq_dec j n) as [-> | Hne];
          [congruence |]. apply Hfirst; [lia | assumption].
      * intros Ht. destruct (Hok Ht). split; [lia | assumption].
    + intros E. injection E as <- <- <-.
      split; [lia |]. split; [cbn [length]; lia |]. split; [| discriminate].
      intros j Hj Hu. assert (j = n) as -> by lia. rewrite Es in Hu.
      discriminate.
Qed.

Lemma unfollow_user_facts (st : settings) (anti_control : AntiAntiControl)
    (server : nat -> posted) (n : nat) (ok : bool) (n' : nat)
    (ds : list Transport.delay) :
  default false (test_mode st) = false ->
  unfollow_user st anti_control server n = (ok, n', ds) ->
  (n < n' <= n + 1 + Z.to_nat (max_retries anti_control))%nat /\
  length ds = (n' - n - 1)%nat /\
  ok = unfollowed (server (n' - 1)%nat) /\
  (forall j, (n <= j < n' - 1)%nat -> unfollowed (server j) = false).
Proof.
  intros Htest. unfold unfollow_user. rewrite Htest.
  assert (Hone : forall b (ds0 : list Transport.delay), ds0 = [] ->
            b = unfollowed (server n) ->
            (n < S n <= n + 1 + Z.to_nat (max_retries anti_control))%nat /\
            length ds0 = (S n - n - 1)%nat /\
            b = unfollowed (server (S n - 1)%nat) /\
            (forall j, (n <= j < S n - 1)%nat -> unfollowed (server j) = false)).
  { intros b ds0 -> ->. split; [lia |]. split; [cbn [length]; lia |].
    replace (S n - 1)%nat with n by lia. split; [reflexivity |].
    intros j Hj. lia. }
  destruct (server n) as [body_code |] eqn:Es.
  - destruct (Z.eqb_spec (default (-1) body_code) 0) as [E0 | N0].
    { intros E. injection E as <- <- <-. apply Hone; [reflexivity |].
      symmetry. apply unfollowed_body. tauto. }
    destruct (Z.eqb_spec (default (-1) body_code) 22015) as [E1 | N1].
    { intros E. injection E as <- <- <-. apply Hone; [reflexivity |].
      symmetry. apply unfollowed_body. tauto. }
    assert (unfollowed (Body body_code) = false) as Hn0.
    { destruct (unfollowed (Body body_code)) eqn:Hu; [| reflexivity].
      apply unfollowed_body in Hu. tauto. }
    destruct (Py.Z_in (default (-1) body_code) [-352; 22016]).
    + intros Er. clear Hone.
      destruct (unfollow_retries_facts _ _ _ _ _ _ _ Er)
        as (Hn & Hd & Hfirst & Hok).
      rewrite range_length in Hn.
      replace (max_retries anti_control - 0) with (max_retries anti_control)
        in Hn by lia.
      split; [lia |]. split; [lia |]. split.
      * destruct ok.
        -- symmetry. now apply Hok.
        -- destruct (unfollowed (server (n' - 1)%nat)) eqn:Hu; [| reflexivity].
           destruct (Nat.eq_dec n' (S n)) as [-> | Hne].
           ++ replace (S n - 1)%nat with n in Hu by lia. congruence.
           ++ now destruct (Hfirst (n' - 1)%nat ltac:(lia) Hu).
      * intros j Hj. destruct (Nat.eq_dec j n) as [-> | Hne];
          [congruence |].
        destruct (unfollowed (server j)) eqn:Hu; [| reflexivity].
        destruct (Hfirst j ltac:(lia) Hu). lia.
    + intros E. injection E as <- <- <-. apply Hone; [reflexivity |].
      now symmetry.
  - intros E. injection E as <- <- <-. now apply Hone.
Qed.

(** X6. In the test mode [unfollow_user] sends no post and waits for no
    retry: it answers [True] and the count of posts is as before.  Outside
    the test mode it sends at least one and at most [1 + max_retries]
    posts, and it sleeps a retry delay before each post but the first. *)
Theorem unfollow_user_posts_bounded (st : settings)
    (anti_control : AntiAntiControl) (server : nat -> posted) (n : nat) :
  if default false (test_mode st)
  then unfollow_user st anti_control server n = (true, n, [])
  else
    (n < snd (fst (unfollow_user st anti_control server n))
       <= n + 1 + Z.to_nat (max_retries anti_control))%nat /\
    length (snd (unfollow_user st anti_control server n))
    = (snd (fst (unfollow_user st anti_control server n)) - n - 1)%nat.
Proof.
  destruct (default false (test_mode st)) eqn:Htest.
  - unfold unfollow_user. now rewrite Htest.
  - destruct (unfollow_user st anti_control server n) as [[ok n'] ds] eqn:E.
    destruct (unfollow_user_facts _ _ _ _ _ _ _ Htest E) as (Hn & Hd & _).
    cbn [fst snd]. lia.
Qed.

(** Outside the test mode, [unfollow_user] sends at least one post,
    answers [True] exactly when the last post it sent got the code 0 or
    22015, and stops at the first such reply: no post before the last got
    one. *)
Theorem unfollow_user_answer (st : settings) (anti_control : AntiAntiControl)
    (server : nat -> posted) (n : nat) :
  default false (test_mode st) = false ->
  (n < snd (fst (unfollow_user st anti_control server n)))%nat /\
  fst (fst (unfollow_user st anti_control server n))
  = unfollowed
      (server (snd (fst (unfollow_user st anti_control server n)) - 1)%nat) /\
  (forall j,
     (n <= j < snd (fst (unfollow_user st anti_control server n)) - 1)%nat ->
     unfollowed (server j) = false).
Proof.
  intros Htest.
  destruct (unfollow_user st anti_control server n) as [[ok n'] ds] eqn:E.
  destruct (unfollow_user_facts _ _ _ _ _ _ _ Htest E) as (Hn & _ & Hok & Hbefore).
  cbn [fst snd]. split; [lia |]. split; assumption.
Qed.

Lemma unfollow_user_answer_witness :
  let server := fun j : nat =>
    match j with
    | 0%nat => Body (Some (-352))
    | 1%nat => Body (Some 22016)
    | _ => Body (Some 22015)
    end in
  fst (fst (unfollow_user (mkSettings None None 50 (Some 1%Z)) init server 0))
  = unfollowed
      (server (snd (fst (unfollow_user (mkSettings None None 50 (Some 1%Z)) init
                           server 0)) - 1)%nat).
Proof.
  intros server.
  apply (unfollow_user_answer (mkSettings None None 50 (Some 1%Z)) init server 0).
  reflexivity.
Defined.

End UnfollowFacts.

Section BatchFacts.
Import Governor Store Relation.

Lemma slice_to_length {A} (l : list A) (b : Z) :
  0 <= b ->
  Z.of_nat (length (Py.slice_to l b)) = Z.min b (Z.of_nat (length l)).
Proof.
  intros Hb. unfold Py.slice_to, Py.clip.
  destruct (Z.ltb_spec b 0); [lia |]. rewrite length_firstn. lia.
Qed.

Lemma slice_to_In {A} (l : list A) (b : Z) (x : A) :
  In x (Py.slice_to l b) -> In x l.
Proof.
  unfold Py.slice_to. intros H.
  rewrite <- (firstn_skipn (Z.to_nat (Py.clip (Z.of_nat (length l)) b)) l).
  apply in_or_app. now left.
Qed.

Lemma unfollow_user_posts_mono (st : settings)
    (anti_control : AntiAntiControl) (server : nat -> posted) (n : nat) :
  (n <= snd (fst (unfollow_user st anti_control server n)))%nat /\
  (default false (test_mode st) = false ->
   n < snd (fst (unfollow_user st anti_control server n)))%nat /\
  (default false (test_mode st) = true ->
   unfollow_user st anti_control server n = (true, n, [])).
Proof.
  destruct (default false (test_mode st)) eqn:Htest.
  - unfold unfollow_user. rewrite Htest. cbn [fst snd].
    split; [lia |]. split; [discriminate | reflexivity].
  - destruct (unfollow_user st anti_control server n) as [[ok n'] ds] eqn:E.
    destruct (unfollow_user_facts _ _ _ _ _ _ _ Htest E) as (Hn & _).
    cbn [fst snd]. split; [lia |]. split; [intros _; lia | discriminate].
Qed.

(** What the loop of the batch leaves when it ends with a tally. *)
Lemma unfollow_each_tally (st : settings) (anti_control : AntiAntiControl)
    (server : nat -> posted) (total_count : Z) (is_test_mode : bool)
    (users : list user) (i s f : Z) (n p : nat) (t : tally) (n' p' : nat) :
  unfollow_each st anti_control server total_count is_test_mode users
                i s f n p = (Tallied t, n', p') ->
  total t = total_count /\
  success t + failed t = s + f + Z.of_nat (length users) /\
  s <= success t /\ f <= failed t /\
  cancelled t = None /\ in_test_mode t = Some is_test_mode /\
  (n <= n')%nat /\
  (i + Z.of_nat (length users) = total_count + 1 ->
   p' = (p + Nat.pred (length users))%nat).
Proof.
  revert i s f n p. induction users as [| u rest IH]; intros i s f n p;
    cbn [unfollow_each length].
  - intros E. injection E as <- <- <-. cbn.
    repeat split; lia.
  - destruct (mid u) as [fid |]; [| discriminate].
    destruct (uname u) as [name |]; [| discriminate].
    pose proof (unfollow_user_posts_mono st anti_control server n) as [Hmono _].
    destruct (unfollow_user st anti_control server n) as [[ok n1] ds].
    cbn [fst snd] in Hmono. intros E. apply IH in E.
    destruct E as (Ht & Hsum & Hs & Hf & Hc & Hm & Hn & Hp).
    split; [assumption |]. split; [destruct ok; lia |].
    split; [destruct ok; lia |]. split; [destruct ok; lia |].
    split; [assumption |]. split; [assumption |]. split; [lia |].
    intros Hi. rewrite Hp by lia.
    destruct (Z.ltb_spec i total_count); destruct rest; cbn [length] in *; lia.
Qed.

(** A batch that ends with a tally and was not refused has counted every
    entry it worked on once: [success + failed = total], with [total] the
    number of entries (in the test mode: of the first
    [max_test_operations] entries, when that number is not negative), and
    it paused between any two operations. *)
Theorem batch_unfollow_all_adds_up (st : settings)
    (anti_control : AntiAntiControl) (confirm_callback : option (Z -> bool))
    (all_following : list user) (server : nat -> posted) (n : nat)
    (t : tally) (n' p' : nat) :
  batch_unfollow_all st anti_control confirm_callback all_following server n
    = (Tallied t, n', p') ->
  cancelled t = None ->
  (default false (test_mode st) = true ->
   0 <= default 5 (max_test_operations st)) ->
  success t + failed t = total t /\
  0 <= success t /\ 0 <= failed t /\
  total t <= Z.of_nat (length all_following) /\
  (default false (test_mode st) = false ->
   total t = Z.of_nat (length all_following)) /\
  p' = Z.to_nat (total t - 1) /\
  (n <= n')%nat.
Proof.
  unfold batch_unfollow_all. destruct all_following as [| u0 rest0] eqn:Eall.
  { intros E _ _. injection E as <- <- <-. cbn. repeat split; lia. }
  rewrite <- Eall. clear Eall u0 rest0.
  set (len := Z.of_nat (length all_following)).
  destruct (default false (test_mode st)) eqn:Htest.
  - destruct (match confirm_callback with
              | Some confirm =>
                  negb (confirm (Z.min len (default 5 (max_test_operations st))))
              | None => false
              end).
    { intros E Hc. injection E as <- <- <-. discriminate. }
    intros E _ Hops. specialize (Hops eq_refl).
    apply unfollow_each_tally in E.
    destruct E as (Ht & Hsum & Hs & Hf & _ & _ & Hn & Hp).
    pose proof (slice_to_length all_following
                  (Z.min len (default 5 (max_test_operations st)))
                  ltac:(lia)) as Hlen.
    fold len in Hlen. rewrite Hp by lia.
    repeat split; try lia; try discriminate.
  - destruct (match confirm_callback with
              | Some confirm => negb (confirm len)
              | None => false
              end).
    { intros E Hc. injection E as <- <- <-. discriminate. }
    intros E _ _. apply unfollow_each_tally in E.
    destruct E as (Ht & Hsum & Hs & Hf & _ & _ & Hn & Hp).
    rewrite Hp by (fold len; lia). fold len in Hsum.
    repeat split; try lia.
Qed.

Lemma batch_unfollow_all_adds_up_witness :
  let a := mkUser None (Some (IdInt 1)) (Some "Ann") None None None None None None in
  let b := mkUser None (Some (IdInt 2)) (Some "Bob") None None None None None None in
  let server := fun j : nat =>
    match j with 1%nat => Body (Some (-400)) | _ => Body (Some 0) end in
  let t := {| total := 2; success := 1; failed := 1; cancelled := None;
              in_test_mode := Some false |} in
  success t + failed t = total t /\ 0 <= success t /\ 0 <= failed t.
Proof.
  intros a b server t.
  destruct (batch_unfollow_all_adds_up (mkSettings None None 50 (Some 1%Z)) init None
              [a; b] server 0 t 2 1) as (H1 & H2 & H3 & _).
  - reflexivity.
  - reflexivity.
  - discriminate.
  - split; [exact H1 | split; [exact H2 | exact H3]].
Defined.

Lemma unfollow_each_test_mode (st : settings) (anti_control : AntiAntiControl)
    (server : nat -> posted) (total_count : Z) (users : list user)
    (i s f : Z) (n p : nat) :
  default false (test_mode st) = true ->
  (forall u, In u users -> mid u <> None /\ uname u <> None) ->
  exists p',
    unfollow_each st anti_control server total_count true users i s f n p
    = (Tallied {| total := total_count;
                  success := s + Z.of_nat (length users);
                  failed := f; cancelled := None;
                  in_test_mode := Some true |}, n, p').
Proof.
  intros Htest. revert i s p. induction users as [| u rest IH];
    intros i s p Hkeys; cbn [unfollow_each length].
  - exists p. replace (s + Z.of_nat 0) with s by lia. reflexivity.
  - destruct (Hkeys u (or_introl eq_refl)) as [Hm Hu].
    destruct (mid u) as [fid |]; [| contradiction].
    destruct (uname u) as [name |]; [| contradiction].
    destruct (unfollow_user_posts_mono st anti_control server n)
      as (_ & _ & Hsame).
    rewrite (Hsame Htest).
    destruct (IH (i + 1) (s + 1)
                 (if i <? total_count then S p else p)
                 (fun v Hv => Hkeys v (or_intror Hv))) as [p' E].
    exists p'. rewrite E.
    replace (s + 1 + Z.of_nat (length rest))
      with (s + Z.of_nat (S (length rest))) by lia.
    reflexivity.
Qed.

(** In the test mode the batch sends no post at all and reports every
    entry it was limited to as a success. *)
Theorem batch_unfollow_all_test_mode (st : settings)
    (anti_control : AntiAntiControl) (all_following : list user)
    (server : nat -> posted) (n : nat) :
  default false (test_mode st) = true ->
  0 <= default 5 (max_test_operations st) ->
  all_following <> [] ->
  (forall u, In u all_following -> mid u <> None /\ uname u <> None) ->
  exists p',
    batch_unfollow_all st anti_control None all_following server n
    = (Tallied {| total := Z.min (Z.of_nat (length all_following))
                                 (default 5 (max_test_operations st));
                  success := Z.min (Z.of_nat (length all_following))
                                   (default 5 (max_test_operations st));
                  failed := 0; cancelled := None;
                  in_test_mode := Some true |}, n, p').
Proof.
  intros Htest Hops Hne Hkeys. unfold batch_unfollow_all.
  destruct all_following as [| u0 rest0] eqn:Eall; [contradiction |].
  rewrite <- Eall in *. clear Eall u0 rest0. rewrite Htest.
  set (k := Z.min (Z.of_nat (length all_following))
                  (default 5 (max_test_operations st))).
  destruct (unfollow_each_test_mode st anti_control server k
              (Py.slice_to all_following k) 1 0 0 n 0 Htest) as [p' E].
  { intros u Hu. apply Hkeys. now apply slice_to_In in Hu. }
  exists p'. rewrite E.
  replace (0 + Z.of_nat (length (Py.slice_to all_following k))) with k
    by (rewrite slice_to_length by lia; lia).
  reflexivity.
Qed.

Lemma batch_unfollow_all_test_mode_witness :
  let a := mkUser None (Some (IdInt 1)) (Some "Ann") None None None None None None in
  let b := mkUser None (Some (IdInt 2)) (Some "Bob") None None None None None None in
  exists p',
    batch_unfollow_all (mkSettings (Some true) (Some 1) 50 (Some 1%Z)) init None [a; b]
                       (fun _ => PostFails) 7
    = (Tallied {| total := Z.min 2 1; success := Z.min 2 1; failed := 0;
                  cancelled := None; in_test_mode := Some true |}, 7%nat, p').
Proof.
  intros a b.
  apply (batch_unfollow_all_test_mode (mkSettings (Some true) (Some 1) 50 (Some 1%Z))
           init [a; b] (fun _ => PostFails) 7).
  - reflexivity.
  - cbn. lia.
  - discriminate.
  - intros u [<- | [<- | []]]; split; discriminate.
Defined.

Lemma unfollow_each_key_error (st : settings) (anti_control : AntiAntiControl)
    (server : nat -> posted) (total_count : Z) (is_test_mode : bool)
    (l1 l2 : list user) (u : user) (i s f : Z) (n p : nat) :
  default false (test_mode st) = false ->
  (forall v, In v l1 -> mid v <> None /\ uname v <> None) ->
  mid u = None ->
  exists n' p',
    unfollow_each st anti_control server total_count is_test_mode
                  (l1 ++ u :: l2) i s f n p = (KeyError "mid", n', p') /\
    (n + length l1 <= n')%nat.
Proof.
  intros Htest Hkeys Hu. revert i s f n p.
  induction l1 as [| v l1 IH]; intros i s f n p; cbn [app unfollow_each length].
  - rewrite Hu. exists n, p. split; [reflexivity | lia].
  - destruct (Hkeys v (or_introl eq_refl)) as [Hm Hn].
    destruct (mid v) as [fid |]; [| contradiction].
    destruct (uname v) as [name |]; [| contradiction].
    destruct (unfollow_user_posts_mono st anti_control server n)
      as (_ & Hlt & _). specialize (Hlt Htest).
    destruct (unfollow_user st anti_control server n) as [[ok n1] ds].
    cbn [fst snd] in Hlt.
    destruct (IH (fun w Hw => Hkeys w (or_intror Hw)) (i + 1)
                 (if ok then s + 1 else s) (if ok then f else f + 1) n1
                 (if i <? total_count then S p else p))
      as (n' & p' & E & Hle).
    exists n', p'. split; [exact E | lia].
Qed.

(** Outside the test mode, an entry without the key ['mid'] ends the whole
    batch in a [KeyError]: no tally comes back, although each entry before
    it has had its post sent. *)
Theorem batch_unfollow_all_key_error (st : settings)
    (anti_control : AntiAntiControl) (l1 l2 : list user) (u : user)
    (server : nat -> posted) (n : nat) :
  default false (test_mode st) = false ->
  (forall v, In v l1 -> mid v <> None /\ uname v <> None) ->
  mid u = None ->
  exists n' p',
    batch_unfollow_all st anti_control None (l1 ++ u :: l2) server n
    = (KeyError "mid", n', p') /\
    (n + length l1 <= n')%nat.
Proof.
  intros Htest Hkeys Hu. unfold batch_unfollow_all. rewrite Htest.
  destruct (l1 ++ u :: l2) as [| u0 rest0] eqn:Eall.
  { now destruct l1. }
  rewrite <- Eall. now apply unfollow_each_key_error.
Qed.

Lemma batch_unfollow_all_key_error_witness :
  let a := mkUser None (Some (IdInt 1)) (Some "Ann") None None None None None None in
  let b := mkUser (Some (IdInt 2)) None (Some "Bob") None None None None None None in
  exists n' p',
    batch_unfollow_all (mkSettings None None 50 (Some 1%Z)) init None ([a] ++ b :: [a])
                       (fun _ => Body (Some 0)) 0
    = (KeyError "mid", n', p') /\
    (0 + length [a] <= n')%nat.
Proof.
  intros a b.
  apply (batch_unfollow_all_key_error (mkSettings None None 50 (Some 1%Z)) init [a] [a] b
           (fun _ => Body (Some 0)) 0).
  - reflexivity.
  - intros v [<- | []]; split; discriminate.
  - reflexivity.
Defined.

End BatchFacts.

Section FetchFacts.
Import Store Relation.
Variable strftime : Z -> option string.

Lemma range_cons (a b : Z) : a < b -> Py.range a b = a :: Py.range (a + 1) b.
Proof.
  intros H. rewrite (range_split a a b) by lia. now rewrite Py_range_nil.
Qed.

Lemma last_page_false (ps : Z) (r : page_reply) :
  last_page ps r = false ->
  exists u rest, r = Page (Some (u :: rest)) /\
                 (Z.of_nat (length (u :: rest)) <? ps) = false.
Proof.
  destruct r as [[[| u rest] |] |]; cbn; try discriminate.
  intros H. now exists u, rest.
Qed.

Lemma last_page_true (ps : Z) (r : page_reply) :
  last_page ps r = true ->
  r = PageFails \/ (exists l, r = Page l /\ default [] l = []) \/
  (exists u rest, r = Page (Some (u :: rest)) /\
                  (Z.of_nat (length (u :: rest)) <? ps) = true).
Proof.
  destruct r as [[[| u rest] |] |]; cbn; intros H.
  - right. left. now exists (Some []).
  - right. right. now exists u, rest.
  - right. left. now exists None.
  - now left.
Qed.

(** The governed loop, [d] full pages before the page that ends it. *)
Lemma fetch_pages_run (ps : Z) (server : Z -> page_reply) (d : nat) :
  forall (pn : Z) (acc : list user) (fuel : nat),
  (forall j, pn <= j < pn + Z.of_nat d -> last_page ps (server j) = false) ->
  last_page ps (server (pn + Z.of_nat d)) = true ->
  (d < fuel)%nat ->
  fetch_pages strftime fuel ps server pn acc =
  Some (acc ++ map (stamp strftime)
                   (flat_map (fun j => page_users (server j))
                             (Py.range pn (pn + Z.of_nat d + 1)))).
Proof.
  induction d as [| d IH]; intros pn acc fuel Hfull Hlast Hfuel;
    (destruct fuel as [| fuel]; [lia |]); cbn [fetch_pages].
  - replace (pn + Z.of_nat 0) with pn in * by lia.
    rewrite range_cons, Py_range_nil by lia. cbn [flat_map].
    rewrite app_nil_r.
    destruct (last_page_true _ _ Hlast)
      as [E | [(l & E & Hl) | (u & rest & E & Hshort)]]; rewrite E.
    + cbn [page_users map]. now rewrite app_nil_r.
    + rewrite Hl. destruct l as [[| ? ?] |]; try discriminate;
        cbn [page_users map]; now rewrite app_nil_r.
    + cbn [default from_option id page_users]. now rewrite Hshort.
  - destruct (last_page_false ps (server pn)) as (u & rest & E & Hlong).
    { apply Hfull. lia. }
    rewrite E. cbn [default from_option id]. rewrite Hlong.
    rewrite (IH (pn + 1)); try lia.
    + rewrite (range_cons pn) by lia. cbn [flat_map].
      rewrite E. cbn [page_users]. rewrite map_app, app_assoc.
      replace (pn + 1 + Z.of_nat d + 1) with (pn + Z.of_nat (S d) + 1) by lia.
      reflexivity.
    + intros j Hj. apply Hfull. lia.
    + replace (pn + 1 + Z.of_nat d) with (pn + Z.of_nat (S d)) by lia.
      exact Hlast.
Qed.

(** With the governor on, [get_all_following] returns the entries of the
    pages 1 to [k], in order and each with its ['mtime_str'] set, where [k]
    is the first page that fails, is empty or has fewer than
    [min(batch_size, 50)] entries; a page that fails adds nothing and raises
    nothing.  The loop needs [k] rounds. *)
Theorem get_all_following_collects (fuel : nat) (enabled : option bool)
    (st : settings) (server : Z -> page_reply) (k : Z) :
  default true enabled = true ->
  1 <= k ->
  (forall j, 1 <= j < k ->
     last_page (Z.min (batch_size st) 50) (server j) = false) ->
  last_page (Z.min (batch_size st) 50) (server k) = true ->
  (Z.to_nat k <= fuel)%nat ->
  get_all_following strftime fuel enabled st server =
  Some (Fetched (map (stamp strftime)
                     (flat_map (fun j => page_users (server j))
                               (Py.range 1 (k + 1))))).
Proof.
  intros Hon Hk Hfull Hlast Hfuel. unfold get_all_following.
  rewrite Hon. cbn [negb].
  rewrite (fetch_pages_run _ server (Z.to_nat (k - 1)) 1 [] fuel).
  - cbn [option_map app].
    replace (1 + Z.of_nat (Z.to_nat (k - 1)) + 1) with (k + 1) by lia.
    reflexivity.
  - intros j Hj. apply Hfull. lia.
  - replace (1 + Z.of_nat (Z.to_nat (k - 1))) with k by lia. exact Hlast.
  - lia.
Qed.



Lemma fetch_pages_never_ends (ps : Z) (server : Z -> page_reply) (fuel : nat) :
  forall (pn : Z) (acc : list user),
  (forall j, pn <= j -> last_page ps (server j) = false) ->
  fetch_pages strftime fuel ps server pn acc = None.
Proof.
  induction fuel as [| fuel IH]; intros pn acc Hfull; cbn [fetch_pages];
    [reflexivity |].
  destruct (last_page_false ps (server pn)) as (u & rest & E & Hlong).
  { apply Hfull. lia. }
  rewrite E. cbn [default from_option id]. rewrite Hlong. apply IH.
  intros j Hj. apply Hfull. lia.
Qed.

(** Nothing bounds the loop of [get_all_following]: against a remote that
    answers every page with [min(batch_size, 50)] entries or more, it has
    not ended after any number of rounds. *)
Theorem get_all_following_unbounded (enabled : option bool) (st : settings)
    (server : Z -> page_reply) :
  default true enabled = true ->
  (forall j, 1 <= j ->
     last_page (Z.min (batch_size st) 50) (server j) = false) ->
  forall fuel, get_all_following strftime fuel enabled st server = None.
Proof.
  intros Hon Hfull fuel. unfold get_all_following. rewrite Hon. cbn [negb].
  now rewrite fetch_pages_never_ends.
Qed.

End FetchFacts.

Section FetchWitnesses.
Import Store Relation.

Lemma get_all_following_collects_witness :
  let clock := fun _ : Z => Some "2024-05-01 12:00" in
  let a := mkUser None (Some (IdInt 1)) (Some "Ann") None (Some 0)
                  None None None None in
  let b := mkUser None (Some (IdInt 2)) (Some "Bob") None (Some 5)
                  None None None None in
  let server := fun j : Z =>
    if j =? 1 then Page (Some [a; b])
    else if j =? 2 then Page (Some [a])
    else PageFails in
  get_all_following clock 2 None (mkSettings None None 2 (Some 1%Z)) server =
  Some (Fetched (map (stamp clock)
                     (flat_map (fun j => page_users (server j))
                               (Py.range 1 (2 + 1))))).
Proof.
  intros clock a b server.
  apply (get_all_following_collects clock 2 None (mkSettings None None 2 (Some 1%Z))
           server 2).
  - reflexivity.
  - lia.
  - intros j Hj. assert (j = 1) as -> by lia. reflexivity.
  - reflexivity.
  - cbn. lia.
Defined.


Lemma get_all_following_unbounded_witness :
  let clock := fun _ : Z => Some "2024-05-01 12:00" in
  let a := mkUser None (Some (IdInt 1)) (Some "Ann") None None
                  None None None None in
  get_all_following clock 100 None (mkSettings None None 1 (Some 1%Z))
                    (fun _ => Page (Some [a])) = None.
Proof.
  intros clock a.
  apply (get_all_following_unbounded clock None (mkSettings None None 1 (Some 1%Z))
           (fun _ => Page (Some [a]))).
  - reflexivity.
  - intros j _. reflexivity.
Defined.

End FetchWitnesses.

(** ** The relation store: lookups and invariants *)

Section StoreLookups.
Import Py Store.

Lemma process_user_unfold (b : building) (u : user) :
  truthy (uid_of u) = true ->
  b_users (process_user b u) = <[uid_of u := user_info u]> (b_users b) /\
  b_by_uid (process_user b u) =
    (if len (lower (uid_of u)) <=? 20
     then index_prefixes (lower (uid_of u)) (uid_of u) 1
            (len (lower (uid_of u)) + 1) (b_by_uid b)
     else b_by_uid b) /\
  b_by_sign (process_user b u) =
    fold_left (fun d word =>
                 if len word >=? 2 then append_uid_once word (uid_of u) d
                 else d)
              (remove_dups (words (lower (sign_of u)))) (b_by_sign b).
Proof. intros T. unfold process_user. rewrite T. cbn. repeat split. Qed.

Lemma process_user_skip (b : building) (u : user) :
  truthy (uid_of u) = false -> process_user b u = b.
Proof. intros T. unfold process_user. now rewrite T. Qed.




Lemma by_uid_fold (raw_list : list user) (b : building) (p x : string) :
  In x (default [] (b_by_uid (fold_left process_user raw_list b) !! p)) <->
  In x (default [] (b_by_uid b !! p)) \/
  exists u, In u raw_list /\ uid_of u = x /\ x <> "" /\
    len (lower x) <= 20 /\
    exists i, 1 <= i < len (lower x) + 1 /\
              p = take (Z.to_nat i) (lower x).
Proof.
  revert b. induction raw_list as [| u raw_list IH]; intros b; cbn [fold_left].
  - split; [now left | intros [H | (u & [] & _)]; exact H].
  - rewrite IH. destruct (truthy (uid_of u)) eqn:T.
    + destruct (process_user_unfold b u T) as (_ & -> & _).
      assert (uid_of u <> "") as Hne
        by (intros E; apply truthy_false in E; congruence).
      destruct (Z.leb_spec (len (lower (uid_of u))) 20) as [Hle | Hgt].
      * rewrite index_prefixes_In. split.
        -- intros [[H | (Hx & i & Hi & Hp)] | (v & Hv & Hrest)].
           ++ now left.
           ++ right. exists u. subst x. split; [now left |].
              split; [reflexivity |]. split; [assumption |].
              split; [assumption |]. now exists i.
           ++ right. exists v. split; [now right | exact Hrest].
        -- intros [H | (v & [Hv | Hv] & Hid & Hx & Hl & i & Hi & Hp)].
           ++ left. now left.
           ++ subst v x. left. right. split; [reflexivity |]. now exists i.
           ++ right. exists v. split; [assumption |]. split; [assumption |].
              split; [assumption |]. split; [assumption |]. now exists i.
      * split.
        -- intros [H | (v & Hv & Hrest)]; [now left |].
           right. exists v. split; [now right | exact Hrest].
        -- intros [H | (v & [Hv | Hv] & Hid & Hx & Hl & Hrest)]; [now left | |].
           ++ subst v x. lia.
           ++ right. exists v. split; [assumption |]. split; [assumption |].
              split; [assumption |]. split; assumption.
    + rewrite process_user_skip by assumption.
      apply truthy_false in T. split.
      * intros [H | (v & Hv & Hrest)]; [now left |].
        right. exists v. split; [now right | exact Hrest].
      * intros [H | (v & [Hv | Hv] & Hid & Hx & Hrest)]; [now left | |].
        -- subst v. congruence.
        -- right. exists v. split; [assumption |]. split; [assumption |].
           split; assumption.
Qed.

(** What the id index of a snapshot holds: an id stands under a key other
    than ['__total__'] exactly when an entry of the input has that
    (non-empty) id, the id has at most 20 characters, and the key is a
    non-empty prefix of the lowered id.  An id of more than 20 characters
    stands under no key. *)
Theorem by_uid_spec (now : string) (raw_list : list user) (p x : string) :
  p <> total_key ->
  (In x (uids_under (by_uid (index (process_data now raw_list))) p) <->
   (exists u, In u raw_list /\ uid_of u = x) /\ x <> "" /\
   len (lower x) <= 20 /\
   exists i, 1 <= i <= len (lower x) /\ p = take (Z.to_nat i) (lower x)).
Proof.
  intros Hp. unfold process_data. cbn [index by_uid].
  rewrite uids_under_with_total. case_decide; [contradiction |].
  rewrite by_uid_fold. cbn [empty_building b_by_uid].
  rewrite lookup_empty. cbn [default from_option id In]. split.
  - intros [[] | (u & Hu & Hid & Hx & Hl & i & Hi & E)].
    split; [now exists u |]. repeat split; try assumption.
    exists i. split; [lia | exact E].
  - intros ((u & Hu & Hid) & Hx & Hl & i & Hi & E).
    right. exists u. repeat split; try assumption. exists i. split; [lia | exact E].
Qed.

Lemma by_uid_spec_witness :
  In "42" (uids_under
             (by_uid (index (process_data ""
                [mkUser (Some (IdInt 42)) None (Some "Ann") None None None None None None])))
             "4").
Proof.
  apply (by_uid_spec ""
           [mkUser (Some (IdInt 42)) None (Some "Ann") None None None None None None]
           "4" "42").
  - discriminate.
  - split; [eexists; split; [now left | reflexivity] |].
    split; [discriminate |]. split; [vm_compute; discriminate |].
    exists 1. split; [vm_compute; split; discriminate | reflexivity].
Defined.

End StoreLookups.

Section StoreInvariants.
Import Py Store.

Lemma append_uid_once_lookup (key uid : string)
    (d : gmap string (list string)) (k : string) :
  default [] (append_uid_once key uid d !! k) =
  if decide (k = key)
  then (if list_in uid (default [] (d !! key)) then default [] (d !! key)
        else default [] (d !! key) ++ [uid])
  else default [] (d !! k).
Proof.
  unfold append_uid_once. case_decide as E.
  - subst k. now rewrite lookup_insert_eq.
  - now rewrite lookup_insert_ne by congruence.
Qed.

Lemma by_sign_words_In (ws : list string) (uid : string)
    (d : gmap string (list string)) (p x : string) :
  In x (default [] (fold_left
          (fun d word =>
             if len word >=? 2 then append_uid_once word uid d else d)
          ws d !! p)) ->
  In x (default [] (d !! p)) \/ x = uid.
Proof.
  revert d. induction ws as [| w ws IH]; intros d; cbn [fold_left];
    [now left |].
  intros H. apply IH in H. destruct H as [H | H]; [| now right].
  destruct (len w >=? 2); [| now left].
  rewrite append_uid_once_lookup in H. case_decide as E; [| now left].
  subst p. destruct (list_in uid (default [] (d !! w))); [now left |].
  apply in_app_or in H. destruct H as [H | [H | []]]; [now left | now right].
Qed.

Lemma ids_known_process_user (b : building) (u : user) :
  ids_known b -> ids_known (process_user b u).
Proof.
  intros Hb. destruct (truthy (uid_of u)) eqn:T;
    [| now rewrite process_user_skip].
  intros p x Hin.
  destruct (process_user_unfold b u T) as (Eu & Ei & Es).
  rewrite Eu. apply lookup_insert_is_Some'.
  destruct (decide (uid_of u = x)) as [| Hne]; [now left | right].
  apply (Hb p). destruct Hin as [H | [H | H]].
  - rewrite process_user_by_name, T in H.
    apply index_prefixes_In in H. destruct H as [H | [Hx _]];
      [now left | congruence].
  - rewrite Ei in H. destruct (len (lower (uid_of u)) <=? 20).
    + apply index_prefixes_In in H. destruct H as [H | [Hx _]];
        [right; now left | congruence].
    + right. now left.
  - rewrite Es in H. apply by_sign_words_In in H.
    destruct H as [H | Hx]; [right; now right | congruence].
Qed.

Lemma ids_known_fold (raw_list : list user) (b : building) :
  ids_known b -> ids_known (fold_left process_user raw_list b).
Proof.
  revert b. induction raw_list as [| u raw_list IH]; intros b Hb;
    cbn [fold_left]; [assumption |].
  apply IH. now apply ids_known_process_user.
Qed.

(** Every id that one of the three indices of a snapshot holds under some
    key is a key of its [users]: [get_user_by_uid] finds each of them. *)
Theorem index_ids_are_users (now : string) (raw_list : list user)
    (p x : string) :
  In x (uids_under (by_name (index (process_data now raw_list))) p) \/
  In x (uids_under (by_uid (index (process_data now raw_list))) p) \/
  In x (uids_under (by_sign (index (process_data now raw_list))) p) ->
  is_Some (get_user_by_uid (Some (process_data now raw_list)) (IdStr x)).
Proof.
  unfold get_user_by_uid, process_data.
  cbn [index by_name by_uid by_sign users str].
  rewrite !uids_under_with_total. intros H.
  apply (ids_known_fold raw_list empty_building) with (p := p).
  - intros q y. cbn [empty_building b_by_name b_by_uid b_by_sign].
    rewrite lookup_empty. cbn. tauto.
  - case_decide; [cbn in H; tauto | exact H].
Qed.

Lemma index_ids_are_users_witness :
  is_Some
    (get_user_by_uid
       (Some (process_data ""
          [mkUser None (Some (IdInt 1)) (Some "Ann") (Some "hello") None None None None None]))
       (IdStr "1")).
Proof.
  apply (index_ids_are_users ""
           [mkUser None (Some (IdInt 1)) (Some "Ann") (Some "hello") None None None None None]
           "hello" "1").
  right. right. vm_compute. now left.
Defined.

Lemma stats_total_insert (k : string) (v : Z) (d : gmap string Z) :
  stats_total (<[k := v]> d) = stats_total d + v - default 0 (d !! k).
Proof.
  unfold stats_total.
  assert (Hcomm : forall z1 z2 y : Z, z1 + (z2 + y) = z2 + (z1 + y))
    by (intros; lia).
  destruct (d !! k) as [v0 |] eqn:E.
  - rewrite <- insert_delete_eq.
    rewrite map_fold_insert_L; [| intros; apply Hcomm | apply lookup_delete_eq].
    rewrite (map_fold_delete_L _ 0 k v0 d); [| intros; apply Hcomm | exact E].
    cbn. lia.
  - rewrite map_fold_insert_L; [| intros; apply Hcomm | exact E]. cbn. lia.
Qed.

Lemma stats_total_count_up (k : string) (d : gmap string Z) :
  stats_total (count_up k d) = stats_total d + 1.
Proof. unfold count_up. rewrite stats_total_insert. lia. Qed.

Lemma stats_fold (raw_list : list user) (b : building) :
  stats_total (b_name_length_stats (fold_left process_user raw_list b))
  = stats_total (b_name_length_stats b)
    + Z.of_nat (length (List.filter (fun u => truthy (uid_of u)) raw_list)) /\
  stats_total (b_sign_length_stats (fold_left process_user raw_list b))
  = stats_total (b_sign_length_stats b)
    + Z.of_nat (length (List.filter (fun u => truthy (uid_of u)) raw_list)).
Proof.
  revert b. induction raw_list as [| u raw_list IH]; intros b;
    cbn [fold_left List.filter length]; [lia |].
  destruct (IH (process_user b u)) as [-> ->].
  destruct (truthy (uid_of u)) eqn:T.
  - unfold process_user. rewrite T.
    cbn [negb b_name_length_stats b_sign_length_stats length].
    rewrite !stats_total_count_up. lia.
  - rewrite process_user_skip by assumption. lia.
Qed.

(** Both histograms of a snapshot count every input entry that has an id
    once: the counts of each add up to the number of these entries, the
    entries that repeat an id included. *)
Theorem statistics_count_entries (now : string) (raw_list : list user) :
  stats_total (name_length_stats (statistics (process_data now raw_list)))
  = Z.of_nat (length (List.filter (fun u => truthy (uid_of u)) raw_list)) /\
  stats_total (sign_length_stats (statistics (process_data now raw_list)))
  = Z.of_nat (length (List.filter (fun u => truthy (uid_of u)) raw_list)).
Proof.
  unfold process_data. cbn [statistics name_length_stats sign_length_stats].
  destruct (stats_fold raw_list empty_building) as [-> ->].
  cbn [empty_building b_name_length_stats b_sign_length_stats].
  unfold stats_total. rewrite map_fold_empty. lia.
Qed.

End StoreInvariants.

Section SearchIndexFacts.
Import Py Store.








(** Under the key ['__total__'] every index of a snapshot holds a number,
    the number of its other keys, and no list of ids: a keyword that
    becomes ['__total__'] gets that number from [search_index]. *)
Theorem search_index_total_key (now : string) (raw_list : list user)
    (keyword search_type : string) :
  strip (lower keyword) = total_key ->
  search_type = "name" \/ search_type = "uid" \/ search_type = "sign" ->
  exists n,
    search_index (Some (process_data now raw_list)) keyword search_type
    = Total n /\ 0 <= n.
Proof.
  intros Hk Ht. unfold search_index, index_of. rewrite Hk.
  unfold process_data. cbn [index by_name by_uid by_sign].
  destruct Ht as [-> | [-> | ->]]; cbn [String.eqb Ascii.eqb Bool.eqb];
    unfold with_total; rewrite lookup_insert_eq; cbn;
    eexists; (split; [reflexivity | lia]).
Qed.

Lemma search_index_total_key_witness :
  exists n,
    search_index
      (Some (process_data ""
         [mkUser None (Some (IdInt 1)) (Some "__total__") None None None None None None]))
      "__TOTAL__" "name" = Total n /\ 0 <= n.
Proof.
  apply (search_index_total_key ""
           [mkUser None (Some (IdInt 1)) (Some "__total__") None None None None None None]
           "__TOTAL__" "name").
  - reflexivity.
  - now left.
Defined.

End SearchIndexFacts.

Section RegistryFacts.
Import Store.
Context {W D : Type}.

Lemma register_observer_entries (obs : observers W D) (name : string)
    (cb : callback W D) :
  List.NoDup (map fst obs) ->
  forall n c,
    In (n, c) (register_observer obs name cb) <->
    (n = name /\ c = cb) \/ (n <> name /\ In (n, c) obs).
Proof.
  induction obs as [| [m c0] obs IH]; intros Hnd n c;
    cbn [register_observer In].
  - split.
    + intros [E | []]. injection E as <- <-. now left.
    + intros [[-> ->] | [_ []]]. now left.
  - inversion Hnd as [| ? ? Hnotin Hnd']; subst. cbn [fst] in Hnotin.
    destruct (String.eqb_spec m name) as [-> | Hne]; cbn [In].
    + split.
      * intros [E | H].
        -- injection E as <- <-. now left.
        -- right. split; [| now right]. intros ->. apply Hnotin.
           apply in_map_iff. now exists (name, c).
      * intros [[-> ->] | [Hn [E | H]]].
        -- now left.
        -- injection E as -> _. congruence.
        -- now right.
    + rewrite (IH Hnd'). split.
      * intros [E | [Hl | [Hn H]]].
        -- injection E as <- <-. right. split; [assumption | now left].
        -- now left.
        -- right. split; [assumption | now right].
      * intros [Hl | [Hn [E | H]]].
        -- right. now left.
        -- now left.
        -- right. right. split; assumption.
Qed.

(** One callback per name, the latest: after [register_observer] the name
    has exactly the callback just given, and every observer of another
    name is as before. *)
Theorem register_observer_latest (obs : observers W D) (name : string)
    (cb : callback W D) :
  List.NoDup (map fst obs) ->
  In (name, cb) (register_observer obs name cb) /\
  (forall c, In (name, c) (register_observer obs name cb) -> c = cb) /\
  (forall n c, n <> name ->
     (In (n, c) (register_observer obs name cb) <-> In (n, c) obs)) /\
  List.NoDup (map fst (register_observer obs name cb)).
Proof.
  intros Hnd. pose proof (register_observer_entries obs name cb Hnd) as H.
  split; [apply H; now left |]. split; [| split].
  - intros c Hc. apply H in Hc. destruct Hc as [[_ E] | [Hn _]];
      [assumption | congruence].
  - intros n c Hn. rewrite H. split.
    + intros [[E _] | [_ Hin]]; [congruence | assumption].
    + intros Hin. right. now split.
  - now apply register_observer_NoDup.
Qed.

Lemma unregister_observer_entries (obs : observers W D) (name : string) :
  List.NoDup (map fst obs) ->
  forall n c,
    In (n, c) (unregister_observer obs name) <-> n <> name /\ In (n, c) obs.
Proof.
  induction obs as [| [m c0] obs IH]; intros Hnd n c;
    cbn [unregister_observer In]; [tauto |].
  inversion Hnd as [| ? ? Hnotin Hnd']; subst. cbn [fst] in Hnotin.
  destruct (String.eqb_spec m name) as [-> | Hne]; cbn [In].
  - split.
    + intros H. split; [| now right]. intros ->. apply Hnotin.
      apply in_map_iff. now exists (name, c).
    + intros [Hn [E | H]]; [injection E as -> _; congruence | assumption].
  - rewrite (IH Hnd'). split.
    + intros [E | [Hn H]].
      * injection E as <- <-. split; [assumption | now left].
      * split; [assumption | now right].
    + intros [Hn [E | H]]; [now left | right; now split].
Qed.

(** After [unregister_observer], [notify_observers] does not call the
    callback of that name any more and still calls every other registered
    observer. *)
Theorem notify_after_unregister (obs : observers W D) (name event : string)
    (data : D) (w : W) :
  List.NoDup (map fst obs) ->
  (forall n cb, In (n, cb) obs ->
     forall w' e, snd (cb event data w') <> RaisesBaseException e) ->
  forall n,
    In n (called (snd (fst (notify_observers (unregister_observer obs name)
                              event data w)))) <->
    n <> name /\ In n (map fst obs).
Proof.
  intros Hnd Hno n.
  pose proof (unregister_observer_entries obs name Hnd) as Hent.
  destruct (notify_observers_called (unregister_observer obs name) event data w)
    as [_ ->].
  { intros m cb Hin. apply Hent in Hin. apply (Hno m cb). tauto. }
  rewrite !in_map_iff. split.
  - intros ([m c] & <- & Hin). apply Hent in Hin. destruct Hin as [Hn Hin].
    split; [assumption |]. now exists (m, c).
  - intros (Hn & [m c] & <- & Hin). exists (m, c). split; [reflexivity |].
    apply Hent. now split.
Qed.

End RegistryFacts.

Lemma register_observer_latest_witness :
  let old : Store.callback (list string) unit :=
    fun _ _ w => (w, Store.Returns) in
  let new : Store.callback (list string) unit :=
    fun event _ w => (event :: w, Store.Returns) in
  In ("gui", new)
     (Store.register_observer (Store.register_observer [] "gui" old)
                              "gui" new).
Proof.
  intros old new.
  destruct (register_observer_latest (Store.register_observer [] "gui" old)
              "gui" new) as [H _]; [| exact H].
  cbn. constructor; [intros [] | constructor].
Defined.

Lemma notify_after_unregister_witness :
  let ok : Store.callback (list string) unit :=
    fun event _ w => (event :: w, Store.Returns) in
  let obs := [("gui", ok); ("log", ok)] in
  In "log" (Store.called (snd (fst (Store.notify_observers
              (Store.unregister_observer obs "gui") "data_updated" tt [])))).
Proof.
  intros ok obs.
  apply (notify_after_unregister obs "gui" "data_updated" tt []).
  - cbn. constructor; [intros [E | []]; discriminate |].
    constructor; [intros [] | constructor].
  - intros n cb Hin w' e. cbn in Hin.
    destruct Hin as [E | [E | []]]; injection E as <- <-; cbn; discriminate.
  - split; [discriminate | cbn; tauto].
Defined.

(** ** Backups *)

Section BackupFacts.
Import Py Store.

Lemma insert_newest_first_perm (x : file) (l : list file) :
  Permutation (insert_newest_first x l) (x :: l).
Proof.
  induction l as [| y l IH]; cbn [insert_newest_first]; [reflexivity |].
  destruct (snd y <=? snd x); [reflexivity |].
  rewrite IH. apply perm_swap.
Qed.

Lemma sort_newest_first_perm (l : list file) :
  Permutation (sort_newest_first l) l.
Proof.
  induction l as [| x l IH]; cbn [sort_newest_first fold_right];
    [reflexivity |].
  fold (sort_newest_first l). rewrite insert_newest_first_perm.
  now constructor.
Qed.

Lemma insert_newest_first_sorted (x : file) (l : list file) :
  StronglySorted (fun a b => snd b <= snd a) l ->
  StronglySorted (fun a b => snd b <= snd a) (insert_newest_first x l).
Proof.
  induction l as [| y l IH]; intros Hs; cbn [insert_newest_first].
  - constructor; [constructor | constructor].
  - inversion Hs as [| ? ? Hl Hy]; subst.
    destruct (Z.leb_spec (snd y) (snd x)) as [Hle | Hgt].
    + constructor; [assumption |]. constructor; [assumption |].
      eapply List.Forall_impl; [| exact Hy]. intros z Hz. cbn in *. lia.
    + constructor; [now apply IH |].
      apply (Permutation_Forall (x := x :: l)).
      * symmetry. apply insert_newest_first_perm.
      * constructor; [lia | assumption].
Qed.

Lemma sort_newest_first_sorted (l : list file) :
  StronglySorted (fun a b => snd b <= snd a) (sort_newest_first l).
Proof.
  induction l as [| x l IH]; cbn [sort_newest_first fold_right];
    [constructor |].
  now apply insert_newest_first_sorted.
Qed.

Lemma sorted_app_le (l1 l2 : list file) :
  StronglySorted (fun a b => snd b <= snd a) (l1 ++ l2) ->
  forall k r, In k l1 -> In r l2 -> snd r <= snd k.
Proof.
  induction l1 as [| x l1 IH]; cbn [app]; intros Hs k r Hk Hr; [destruct Hk |].
  inversion Hs as [| ? ? Hl Hx]; subst. destruct Hk as [<- | Hk].
  - rewrite List.Forall_forall in Hx. apply Hx. apply in_or_app. now right.
  - now apply (IH Hl k r).
Qed.

Lemma slice_to_from {A} (l : list A) (k : Z) :
  slice_to l k ++ slice_from l k = l.
Proof. unfold slice_to, slice_from. apply firstn_skipn. Qed.

(** [cleanup_old_backups] removes backups only, keeps the [max_keep]
    newest of them and removes, when every removal succeeds, all the
    others: no backup it keeps is older than one it removes, and files
    that are no backups are never touched. *)
Theorem cleanup_old_backups_keeps_newest (listing : list file)
    (max_keep : Z) (removable : string -> bool) :
  0 <= max_keep ->
  (forall f, In f (cleanup_old_backups listing max_keep removable) ->
     is_backup f = true /\ In f (map fst listing) /\ removable f = true) /\
  Z.of_nat (length (slice_to (backup_files listing) max_keep)) <= max_keep /\
  Permutation
    (slice_to (backup_files listing) max_keep
       ++ slice_from (backup_files listing) max_keep)
    (List.filter (fun f => is_backup (fst f)) listing) /\
  cleanup_old_backups listing max_keep (fun _ => true)
  = map fst (slice_from (backup_files listing) max_keep) /\
  (forall k r,
     In k (slice_to (backup_files listing) max_keep) ->
     In r (slice_from (backup_files listing) max_keep) ->
     snd r <= snd k).
Proof.
  intros Hk.
  pose proof (sort_newest_first_perm
                (List.filter (fun f => is_backup (fst f)) listing)) as Hperm.
  fold (backup_files listing) in Hperm.
  split; [| split; [| split; [| split]]].
  - intros f Hf. unfold cleanup_old_backups in Hf.
    apply filter_In in Hf. destruct Hf as [Hf Hrem].
    apply in_map_iff in Hf. destruct Hf as ([name t] & <- & Hin).
    assert (In (name, t) (backup_files listing)) as Hb.
    { rewrite <- (slice_to_from (backup_files listing) max_keep).
      apply in_or_app. now right. }
    apply (Permutation_in _ Hperm) in Hb. apply filter_In in Hb.
    destruct Hb as [Hl Hb]. cbn [fst] in *.
    split; [assumption |]. split; [| assumption].
    apply in_map_iff. now exists (name, t).
  - unfold slice_to, clip. destruct (Z.ltb_spec max_keep 0); [lia |].
    rewrite length_firstn. lia.
  - now rewrite slice_to_from.
  - unfold cleanup_old_backups.
    induction (map fst (slice_from (backup_files listing) max_keep))
      as [| x l IH]; cbn [List.filter]; [reflexivity | now rewrite IH].
  - apply sorted_app_le. rewrite slice_to_from.
    apply sort_newest_first_sorted.
Qed.

Lemma cleanup_old_backups_keeps_newest_witness :
  cleanup_old_backups
    [("following_backup_a.json", 10); ("following_data.json", 99);
     ("following_backup_b.json", 30); ("following_backup_c.json", 20)]
    2 (fun _ => true)
  = map fst (slice_from
               (backup_files
                  [("following_backup_a.json", 10); ("following_data.json", 99);
                   ("following_backup_b.json", 30);
                   ("following_backup_c.json", 20)]) 2).
Proof.
  apply (cleanup_old_backups_keeps_newest
           [("following_backup_a.json", 10); ("following_data.json", 99);
            ("following_backup_b.json", 30); ("following_backup_c.json", 20)]
           2 (fun _ => true)).
  lia.
Defined.

End BackupFacts.

(** ** Strings: blanks and substrings *)

Section StringFacts.
Import Py.

Lemma lstrip_head (s : string) :
  lstrip s = "" \/ exists c r, lstrip s = String c r /\ is_space c = false.
Proof.
  induction s as [| c s IH]; cbn [lstrip]; [now left |].
  destruct (is_space c) eqn:E; [exact IH |].
  right. now exists c, s.
Qed.

Lemma rstrip_head (c : ascii) (r : string) :
  is_space c = false -> exists r', rstrip (String c r) = String c r'.
Proof.
  intros E. cbn [rstrip]. destruct (rstrip r); rewrite ?E; eauto.
Qed.



(** A stripped string is empty or begins with a character that is no
    blank. *)
Lemma strip_head (s : string) :
  strip s = "" \/ exists c r, strip s = String c r /\ is_space c = false.
Proof.
  unfold strip. destruct (lstrip_head s) as [-> | (c & r & -> & Ec)];
    [now left |].
  destruct (rstrip_head c r Ec) as [r' E]. right. now exists c, r'.
Qed.

Lemma lower_char_space (c : ascii) : is_space (lower_char c) = is_space c.
Proof. destruct c as [[] [] [] [] [] [] [] []]; reflexivity. Qed.

Lemma append_cons (x : ascii) (a b : string) :
  String x a +:+ b = String x (a +:+ b).
Proof. reflexivity. Qed.

Lemma append_nil (b : string) : "" +:+ b = b.
Proof. reflexivity. Qed.

Lemma starts_with_app (p s : string) :
  starts_with p s = true <-> exists b, s = p +:+ b.
Proof.
  revert s. induction p as [| a p IH]; intros s; cbn [starts_with].
  - split; [intros _; now exists s | reflexivity].
  - destruct s as [| c s].
    + split; [discriminate | intros [b E]; discriminate].
    + destruct (Ascii.eqb_spec a c) as [-> | Hne].
      * rewrite IH. split; intros [b E]; exists b.
        -- rewrite append_cons. now rewrite E.
        -- rewrite append_cons in E. now injection E.
      * split; [discriminate |].
        intros [b E]. rewrite append_cons in E. injection E as E _.
        congruence.
Qed.

Lemma string_app_assoc (a b c : string) : (a +:+ b) +:+ c = a +:+ (b +:+ c).
Proof.
  induction a as [| x a IH]; rewrite ?append_nil, ?append_cons;
    [reflexivity | now f_equal].
Qed.

Lemma string_app_nil_r (a : string) : a +:+ "" = a.
Proof.
  induction a as [| x a IH]; rewrite ?append_nil, ?append_cons;
    [reflexivity | now f_equal].
Qed.

(** [p in s] says that [s] is [p] with something before and after. *)
Lemma str_in_app (p s : string) :
  str_in p s = true <-> exists a b, s = a +:+ (p +:+ b).
Proof.
  induction s as [| c s IH]; cbn [str_in].
  - rewrite orb_false_r, starts_with_app. split.
    + intros [b E]. now exists "", b.
    + intros (a & b & E). destruct a; [now exists b | discriminate].
  - rewrite orb_true_iff, starts_with_app, IH. split.
    + intros [[b E] | (a & b & E)].
      * now exists "", b.
      * exists (String c a), b. rewrite append_cons. now rewrite E.
    + intros (a & b & E). destruct a as [| x a].
      * left. now exists b.
      * right. rewrite append_cons in E. injection E as _ E. now exists a, b.
Qed.

Lemma str_in_trans (a b c : string) :
  str_in a b = true -> str_in b c = true -> str_in a c = true.
Proof.
  rewrite !str_in_app. intros (x & y & ->) (u & v & ->).
  exists (u +:+ x), (y +:+ v).
  now rewrite !string_app_assoc.
Qed.

(** Every word of [split] occurs in the string that was split. *)
Lemma split_go_In (cur s t : string) :
  In t (split_go cur s) -> exists a b, cur +:+ s = a +:+ (t +:+ b).
Proof.
  revert cur. induction s as [| c s IH]; intros cur; cbn [split_go].
  - destruct cur as [| x cur]; [intros [] |]. intros [<- | []].
    exists "", "". now rewrite append_nil.
  - destruct (is_space c).
    + destruct cur as [| x cur].
      * intros H. destruct (IH "" H) as (a & b & E).
        rewrite append_nil in E.
        exists (String c a), b. rewrite append_nil, append_cons.
        now rewrite E.
      * intros [<- | H].
        -- exists "", (String c s). now rewrite append_nil.
        -- destruct (IH "" H) as (a & b & E). rewrite append_nil in E.
           exists (String x cur +:+ String c a), b.
           rewrite string_app_assoc, (append_cons c a). now rewrite E.
    + intros H. destruct (IH _ H) as (a & b & E).
      exists a, b. rewrite <- E, string_app_assoc. reflexivity.
Qed.

Lemma split_In (s t : string) : In t (split s) -> str_in t s = true.
Proof.
  intros H. apply split_go_In in H. now apply str_in_app.
Qed.

Lemma split_go_nonempty (cur s : string) :
  cur <> "" -> split_go cur s <> [].
Proof.
  revert cur. induction s as [| c s IH]; intros cur Hc; cbn [split_go].
  - now destruct cur.
  - destruct (is_space c).
    + now destruct cur.
    + apply IH. now destruct cur.
Qed.

(** A string that begins with a character that is no blank has a word. *)
Lemma split_nonempty (c : ascii) (r : string) :
  is_space c = false -> split (String c r) <> [].
Proof.
  intros E. unfold split. cbn [split_go]. rewrite E.
  now apply split_go_nonempty.
Qed.

End StringFacts.

(** ** The search service: history, matching and paging *)

Section HistoryMore.
Import Py Store Search.




(** The history file across a restart.  While the history has at most
    fifty entries after a query, a new [SearchService] beside the file
    written starts with that very history; when it has more, the new
    service starts with fifty entries and without the query just
    submitted. *)
Theorem history_across_restart (self : SearchService) (query : string)
    (writable : bool) :
  strip query <> "" ->
  fs_writable self = true ->
  List.NoDup (search_history self) ->
  let self' := add_to_history self query in
  let fresh := init (history_file self') writable in
  ((length (search_history self') <= 50)%nat ->
   search_history fresh = search_history self') /\
  ((50 < length (search_history self'))%nat ->
   length (search_history fresh) = 50%nat /\
   ~ In (strip query) (search_history fresh)).
Proof.
  intros Hq Hw Hnd self' fresh. subst fresh. unfold init, load_history.
  cbn [history_file search_history].
  pose proof (add_to_history_file self query Hq Hw) as Hfile.
  pose proof (add_to_history_front self query Hq) as Hfront.
  fold self' in Hfile, Hfront. rewrite Hfile. cbn [search_history]. split.
  - intros Hle.
    replace (length (search_history self') - 50)%nat with 0%nat by lia.
    reflexivity.
  - intros Hgt. rewrite Hfront in Hgt. cbn [length] in Hgt.
    destruct (add_to_history_drops_newest self query Hq Hw Hnd ltac:(lia))
      as (saved & Es & Hlen & Hnot).
    fold self' in Es. rewrite Hfile in Es. injection Es as Es.
    rewrite Es. now split.
Qed.

Lemma history_across_restart_witness :
  search_history
    (init (history_file
             (add_to_history (mkSearchService [] ["ann"] None true) "bob"))
          true)
  = search_history (add_to_history (mkSearchService [] ["ann"] None true) "bob").
Proof.
  destruct (history_across_restart (mkSearchService [] ["ann"] None true)
              "bob" true) as [H _].
  - vm_compute. discriminate.
  - reflexivity.
  - repeat constructor; cbn; intuition discriminate.
  - apply H. vm_compute. lia.
Defined.

End HistoryMore.

Section SearchMore.
Import Py Store Search.

Lemma select_filter (self : SearchService) (keyword : string) (exact : bool) :
  select self keyword exact = List.filter (matches keyword exact) (data self).
Proof. unfold select, matches. now destruct exact. Qed.




Lemma firstn_plus {A} (a b : nat) (l : list A) :
  firstn (a + b) l = firstn a l ++ firstn b (skipn a l).
Proof.
  revert l. induction a as [| a IH]; intros l; [reflexivity |].
  destruct l as [| x l]; cbn [Nat.add firstn skipn app].
  - now rewrite firstn_nil.
  - now rewrite IH.
Qed.

Lemma windows_concat {A} (l : list A) (ps n : nat) :
  flat_map (fun j => firstn ps (skipn (j * ps) l)) (seq 0 n)
  = firstn (n * ps) l.
Proof.
  induction n as [| n IH]; [reflexivity |].
  rewrite seq_S, flat_map_app, IH. cbn [flat_map Nat.add].
  rewrite app_nil_r. replace (S n * ps)%nat with (n * ps + ps)%nat by lia.
  now rewrite firstn_plus.
Qed.

(** The pages of a search tile the matches: for [page_size >= 1], the
    results of the pages 1 to [total_pages], one after the other, are all
    the matching entries, each once and in the order of the data. *)
Theorem search_pages_partition (self : SearchService) (query : string)
    (exact : bool) (page_size : Z) :
  strip query <> "" -> 1 <= page_size ->
  flat_map
    (fun p => results_of (search self query exact p page_size))
    (range 1 ((Z.of_nat (length (select self (lower (strip query)) exact))
               + page_size - 1) / page_size + 1))
  = select self (lower (strip query)) exact.
Proof.
  intros Hq Hps.
  set (matches := select self (lower (strip query)) exact).
  set (total := Z.of_nat (length matches)).
  pose proof (total_pages_ceil total page_size Hps) as Hceil.
  set (tp := (total + page_size - 1) / page_size) in *.
  assert (0 <= tp) as Htp by (subst total; nia).
  unfold range. replace (tp + 1 - 1) with tp by lia.
  rewrite flat_map_concat_map, map_map.
  rewrite (map_ext_in _
             (fun j => firstn (Z.to_nat page_size)
                         (skipn (j * Z.to_nat page_size) matches))).
  - rewrite <- flat_map_concat_map, windows_concat.
    apply firstn_all2. subst total. nia.
  - intros j Hj. apply in_seq in Hj.
    rewrite search_unfold by (assumption || lia). cbv zeta.
    cbn [results_of results]. fold matches. fold total. fold tp.
    replace (Z.min (1 + Z.of_nat j) (Z.max 1 tp)) with (1 + Z.of_nat j)
      by lia.
    rewrite slice_window by nia. f_equal; [lia |]. f_equal. nia.
Qed.

Lemma search_pages_partition_witness :
  let self :=
    mkSearchService
      [mkUser (Some (IdInt 1)) None (Some "Ann") (Some "") None None None None None;
       mkUser (Some (IdInt 2)) None (Some "Anna") (Some "") None None None None None;
       mkUser (Some (IdInt 3)) None (Some "Hannah") (Some "") None None None None None]
      [] None true in
  flat_map (fun p => results_of (search self "an" true p 2))
           (range 1 ((Z.of_nat (length (select self (lower (strip "an")) true))
                      + 2 - 1) / 2 + 1))
  = select self (lower (strip "an")) true.
Proof.
  intros self. apply (search_pages_partition self "an" true 2).
  - vm_compute. discriminate.
  - lia.
Defined.

Lemma lower_head (c : ascii) (r : string) :
  lower (String c r) = String (lower_char c) (lower r).
Proof. reflexivity. Qed.

(** The exact mode never finds what the other mode misses: an entry that
    contains the whole query contains one of its words. *)
Theorem exact_matches_are_matches (self : SearchService) (query : string)
    (u : user) :
  strip query <> "" ->
  In u (select self (lower (strip query)) true) ->
  In u (select self (lower (strip query)) false).
Proof.
  intros Hq. rewrite !select_filter, !filter_In. intros [Hin Hm].
  split; [assumption |]. unfold matches, matches_exact, matches_any in *.
  destruct (strip_head query) as [E | (c & r & E & Hc)]; [contradiction |].
  rewrite E, lower_head in *.
  assert (is_space (lower_char c) = false) as Hc'
    by now rewrite lower_char_space.
  pose proof (split_nonempty (lower_char c) (lower r) Hc') as Hne.
  destruct (split (String (lower_char c) (lower r))) as [| t ts] eqn:Es;
    [contradiction |].
  assert (str_in t (String (lower_char c) (lower r)) = true) as Ht
    by (apply split_In; rewrite Es; now left).
  apply existsb_exists. exists t. split; [now left |].
  apply orb_true_iff in Hm. destruct Hm as [Hm | Hm];
    [apply orb_true_iff in Hm; destruct Hm as [Hm | Hm] |].
  - rewrite (str_in_trans _ _ _ Ht Hm). reflexivity.
  - rewrite (str_in_trans _ _ _ Ht Hm). now rewrite !orb_true_r.
  - rewrite (str_in_trans _ _ _ Ht Hm). now rewrite orb_true_r.
Qed.

Lemma exact_matches_are_matches_witness :
  let a := mkUser (Some (IdInt 1)) None (Some "Ann Lee") (Some "") None None None None None in
  In a (select (mkSearchService [a] [] None true) (lower (strip "ann l")) false).
Proof.
  intros a.
  apply (exact_matches_are_matches (mkSearchService [a] [] None true) "ann l" a).
  - vm_compute. discriminate.
  - vm_compute. now left.
Defined.

End SearchMore.
